(** * BLE to USB HID bridge (src/main.c): connection lifecycle and report relay

    A shallow embedding of the firmware's callbacks.  The module-level
    statics of main.c form the record [State]; every call into the Zephyr
    collaborators (Bluetooth host, USB HID class, settings, kernel) is
    recorded, in program order, in the [log] of a [World].  The value a
    collaborator hands back is given by the environment [stack], a function
    of the calls made so far (the last one being the call that is answered).

    Not recorded: LOG_* output and the k_mutex_lock/k_mutex_unlock pairs
    around each access to [current_conn] (every callback is run to
    completion here, so each critical section is one read or one update). *)

From Stdlib Require Import ZArith List Bool Lia.
From Stdlib.Strings Require Import Byte String.
Import ListNotations.
Local Open Scope Z_scope.

(** ** Constants of the Zephyr headers used by main.c *)

Definition BT_UUID_HIDS_VAL : Z := 0x1812.
Definition BT_UUID_HIDS_REPORT_VAL : Z := 0x2a4d.
Definition BT_GATT_ITER_STOP : Z := 0.
Definition BT_GATT_ITER_CONTINUE : Z := 1.
Definition BT_GATT_CCC_NOTIFY : Z := 0x0001.
Definition BT_ATT_FIRST_ATTRIBUTE_HANDLE : Z := 0x0001.
Definition BT_ATT_LAST_ATTRIBUTE_HANDLE : Z := 0xffff.
Definition BT_DATA_NAME_SHORTENED : Z := 0x08.
Definition BT_DATA_NAME_COMPLETE : Z := 0x09.
Definition BT_HCI_ERR_REMOTE_USER_TERM_CONN : Z := 0x13.
Definition EALREADY : Z := 120.

(** uint16_t and uint64_t values are integers reduced modulo the width. *)
Definition wrap16 (z : Z) : Z := z mod 2 ^ 16.
Definition wrap64 (z : Z) : Z := z mod 2 ^ 64.

(** ** Data *)

(** bt_addr_le_t: one type byte and six address bytes. *)
Record bt_addr_le_t := { addr_type : byte; addr_a : list byte }.

Definition zero_bytes (n : nat) : list byte := repeat x00 n.

(** memset(&addr, 0, sizeof(addr)) *)
Definition addr_zero : bt_addr_le_t :=
  {| addr_type := x00; addr_a := zero_bytes 6 |}.

(** A connection object of the host stack; the firmware only ever asks it
    for its peer address (bt_conn_get_dst).  The host keeps at most one
    connection object per peer address. *)
Record bt_conn := { conn_dst : bt_addr_le_t }.

Inductive device := HID_0.

(** enum of gatt.h, in declaration order; the first enumerator is 0. *)
Inductive discover_type :=
| BT_GATT_DISCOVER_PRIMARY
| BT_GATT_DISCOVER_SECONDARY
| BT_GATT_DISCOVER_INCLUDE
| BT_GATT_DISCOVER_CHARACTERISTIC
| BT_GATT_DISCOVER_DESCRIPTOR
| BT_GATT_DISCOVER_ATTRIBUTE.

(** struct bt_gatt_discover_params, the fields main.c touches.  [dp_uuid]
    is a pointer to a 16-bit UUID ([None] is NULL); [dp_func] tells whether
    discover_func is installed as the callback. *)
Record bt_gatt_discover_params := {
  dp_uuid : option Z;
  dp_func : bool;
  dp_start_handle : Z;
  dp_end_handle : Z;
  dp_type : discover_type
}.

(** memset(&discover_params, 0, sizeof(discover_params)) *)
Definition discover_params_zero : bt_gatt_discover_params :=
  {| dp_uuid := None; dp_func := false; dp_start_handle := 0;
     dp_end_handle := 0; dp_type := BT_GATT_DISCOVER_PRIMARY |}.

(** struct bt_gatt_subscribe_params, the fields main.c touches. *)
Record bt_gatt_subscribe_params := {
  sp_notify : bool;
  sp_value_handle : Z;
  sp_ccc_handle : Z;
  sp_end_handle : Z;
  sp_value : Z
}.

Definition subscribe_params_zero : bt_gatt_subscribe_params :=
  {| sp_notify := false; sp_value_handle := 0; sp_ccc_handle := 0;
     sp_end_handle := 0; sp_value := 0 |}.

(** What discovery hands to the callback: the attribute handle and, for a
    characteristic declaration, what bt_gatt_attr_value_handle returns. *)
Record bt_gatt_attr := { handle : Z; attr_value_handle : Z }.

(** One advertising-data element (struct bt_data); data_len is the length
    of [bd_data]. *)
Record bt_data := { bd_type : Z; bd_data : list byte }.

(** Calls into the collaborators. *)
Inductive event :=
| hid_int_ep_write (report : list byte)
| gpio_pin_set_dt (value : Z)
| gpio_pin_toggle_dt
| bt_conn_ref (c : bt_conn)
| bt_conn_unref (c : bt_conn)
| bt_conn_disconnect (c : bt_conn) (reason : Z)
| bt_conn_le_create (peer : bt_addr_le_t)
| bt_le_scan_start
| bt_le_scan_stop
| bt_gatt_discover (c : bt_conn) (p : bt_gatt_discover_params)
| bt_gatt_subscribe (c : bt_conn) (p : bt_gatt_subscribe_params)
| settings_save_one (value : option bt_addr_le_t)
| k_sleep (ms : Z)
| k_work_submit.

(** The statics of main.c (service_found and service_handle are the
    function-local statics of discover_func). *)
Record State := {
  current_conn : option bt_conn;
  subscribe_params : bt_gatt_subscribe_params;
  discover_params : bt_gatt_discover_params;
  keyboard_addr : bt_addr_le_t;
  keyboard_paired : bool;
  hid_report : list byte;
  usb_configured : bool;
  hid_dev : option device;
  button_press_time : Z;
  button_double_press : bool;
  service_found : bool;
  service_handle : Z
}.

Record World := { mem : State; log : list event }.

(** Field updates. *)
Definition set_current_conn (v : option bt_conn) (s : State) : State :=
  {| current_conn := v; subscribe_params := subscribe_params s;
     discover_params := discover_params s; keyboard_addr := keyboard_addr s;
     keyboard_paired := keyboard_paired s; hid_report := hid_report s;
     usb_configured := usb_configured s; hid_dev := hid_dev s;
     button_press_time := button_press_time s;
     button_double_press := button_double_press s;
     service_found := service_found s; service_handle := service_handle s |}.

Definition set_subscribe_params (v : bt_gatt_subscribe_params) (s : State) : State :=
  {| current_conn := current_conn s; subscribe_params := v;
     discover_params := discover_params s; keyboard_addr := keyboard_addr s;
     keyboard_paired := keyboard_paired s; hid_report := hid_report s;
     usb_configured := usb_configured s; hid_dev := hid_dev s;
     button_press_time := button_press_time s;
     button_double_press := button_double_press s;
     service_found := service_found s; service_handle := service_handle s |}.

Definition set_discover_params (v : bt_gatt_discover_params) (s : State) : State :=
  {| current_conn := current_conn s; subscribe_params := subscribe_params s;
     discover_params := v; keyboard_addr := keyboard_addr s;
     keyboard_paired := keyboard_paired s; hid_report := hid_report s;
     usb_configured := usb_configured s; hid_dev := hid_dev s;
     button_press_time := button_press_time s;
     button_double_press := button_double_press s;
     service_found := service_found s; service_handle := service_handle s |}.

Definition set_keyboard_addr (v : bt_addr_le_t) (s : State) : State :=
  {| current_conn := current_conn s; subscribe_params := subscribe_params s;
     discover_params := discover_params s; keyboard_addr := v;
     keyboard_paired := keyboard_paired s; hid_report := hid_report s;
     usb_configured := usb_configured s; hid_dev := hid_dev s;
     button_press_time := button_press_time s;
     button_double_press := button_double_press s;
     service_found := service_found s; service_handle := service_handle s |}.

Definition set_keyboard_paired (v : bool) (s : State) : State :=
  {| current_conn := current_conn s; subscribe_params := subscribe_params s;
     discover_params := discover_params s; keyboard_addr := keyboard_addr s;
     keyboard_paired := v; hid_report := hid_report s;
     usb_configured := usb_configured s; hid_dev := hid_dev s;
     button_press_time := button_press_time s;
     button_double_press := button_double_press s;
     service_found := service_found s; service_handle := service_handle s |}.

Definition set_hid_report (v : list byte) (s : State) : State :=
  {| current_conn := current_conn s; subscribe_params := subscribe_params s;
     discover_params := discover_params s; keyboard_addr := keyboard_addr s;
     keyboard_paired := keyboard_paired s; hid_report := v;
     usb_configured := usb_configured s; hid_dev := hid_dev s;
     button_press_time := button_press_time s;
     button_double_press := button_double_press s;
     service_found := service_found s; service_handle := service_handle s |}.

Definition set_usb_configured (v : bool) (s : State) : State :=
  {| current_conn := current_conn s; subscribe_params := subscribe_params s;
     discover_params := discover_params s; keyboard_addr := keyboard_addr s;
     keyboard_paired := keyboard_paired s; hid_report := hid_report s;
     usb_configured := v; hid_dev := hid_dev s;
     button_press_time := button_press_time s;
     button_double_press := button_double_press s;
     service_found := service_found s; service_handle := service_handle s |}.

Definition set_hid_dev (v : option device) (s : State) : State :=
  {| current_conn := current_conn s; subscribe_params := subscribe_params s;
     discover_params := discover_params s; keyboard_addr := keyboard_addr s;
     keyboard_paired := keyboard_paired s; hid_report := hid_report s;
     usb_configured := usb_configured s; hid_dev := v;
     button_press_time := button_press_time s;
     button_double_press := button_double_press s;
     service_found := service_found s; service_handle := service_handle s |}.

Definition set_button_press_time (v : Z) (s : State) : State :=
  {| current_conn := current_conn s; subscribe_params := subscribe_params s;
     discover_params := discover_params s; keyboard_addr := keyboard_addr s;
     keyboard_paired := keyboard_paired s; hid_report := hid_report s;
     usb_configured := usb_configured s; hid_dev := hid_dev s;
     button_press_time := v;
     button_double_press := button_double_press s;
     service_found := service_found s; service_handle := service_handle s |}.

Definition set_button_double_press (v : bool) (s : State) : State :=
  {| current_conn := current_conn s; subscribe_params := subscribe_params s;
     discover_params := discover_params s; keyboard_addr := keyboard_addr s;
     keyboard_paired := keyboard_paired s; hid_report := hid_report s;
     usb_configured := usb_configured s; hid_dev := hid_dev s;
     button_press_time := button_press_time s;
     button_double_press := v;
     service_found := service_found s; service_handle := service_handle s |}.

Definition set_service_found (v : bool) (s : State) : State :=
  {| current_conn := current_conn s; subscribe_params := subscribe_params s;
     discover_params := discover_params s; keyboard_addr := keyboard_addr s;
     keyboard_paired := keyboard_paired s; hid_report := hid_report s;
     usb_configured := usb_configured s; hid_dev := hid_dev s;
     button_press_time := button_press_time s;
     button_double_press := button_double_press s;
     service_found := v; service_handle := service_handle s |}.

Definition set_service_handle (v : Z) (s : State) : State :=
  {| current_conn := current_conn s; subscribe_params := subscribe_params s;
     discover_params := discover_params s; keyboard_addr := keyboard_addr s;
     keyboard_paired := keyboard_paired s; hid_report := hid_report s;
     usb_configured := usb_configured s; hid_dev := hid_dev s;
     button_press_time := button_press_time s;
     button_double_press := button_double_press s;
     service_found := service_found s; service_handle := v |}.

(** ** The monad of the callbacks: state and call log *)

Definition M (A : Type) : Type := World -> A * World.

Definition ret {A} (a : A) : M A := fun w => (a, w).

Definition bind {A B} (m : M A) (k : A -> M B) : M B :=
  fun w => let (a, w') := m w in k a w'.

Notation "x <- m ;; k" := (bind m (fun x => k))
  (at level 61, m at next level, right associativity).
Notation "m ;; k" := (bind m (fun _ => k))
  (at level 61, right associativity).

Definition get : M State := fun w => (mem w, w).

Definition modify (f : State -> State) : M unit :=
  fun w => (tt, {| mem := f (mem w); log := log w |}).

(** A call that returns nothing the firmware looks at. *)
Definition emit (e : event) : M unit :=
  fun w => (tt, {| mem := mem w; log := log w ++ [e] |}).

Definition when (b : bool) (m : M unit) : M unit := if b then m else ret tt.

Definition is_some {A} (o : option A) : bool :=
  match o with Some _ => true | None => false end.

Definition zneq (a b : Z) : bool := negb (a =? b).

(** enum usb_dc_status_code: the two codes the status callback acts on, and
    all the others. *)
Inductive usb_dc_status_code :=
| USB_DC_CONFIGURED
| USB_DC_DISCONNECTED
| USB_DC_OTHER (code : Z).

(** ** C strings for the advertised device name *)

Definition TARGET_DEVICE_NAME : list byte := list_byte_of_string "Adv360 Pro".
Definition TARGET_DEVICE_NAME_ALT : list byte := list_byte_of_string "Adv360 Pro R".
Definition TARGET_DEVICE_NAME_ALT2 : list byte := list_byte_of_string "Adv360 Pro L".

(** The bytes of a char buffer up to its first NUL. *)
Fixpoint c_str (buf : list byte) : list byte :=
  match buf with
  | [] => []
  | b :: rest => if Byte.eqb b x00 then [] else b :: c_str rest
  end.

Fixpoint is_prefix (p l : list byte) : bool :=
  match p, l with
  | [], _ => true
  | _ :: _, [] => false
  | x :: p', y :: l' => Byte.eqb x y && is_prefix p' l'
  end.

(** strstr(haystack, needle) != NULL *)
Fixpoint strstr (haystack needle : list byte) : bool :=
  is_prefix needle haystack ||
  match haystack with
  | [] => false
  | _ :: rest => strstr rest needle
  end.

(** char name[30]: memcpy of MIN(data_len, sizeof(name) - 1) bytes, then the
    terminating NUL. *)
Definition copy_name (data : list byte) : list byte :=
  c_str (firstn (Nat.min (List.length data) 29) data).

Section Firmware.

(** The collaborators' answers: the return code of a call, given the log
    up to and including that call. *)
Variable stack : list event -> Z.

Definition call (e : event) : M Z :=
  fun w => let l := log w ++ [e] in (stack l, {| mem := mem w; log := l |}).

(** ** USB HID status callback *)

Definition usb_hid_status_cb (status : usb_dc_status_code) : M unit :=
  match status with
  | USB_DC_CONFIGURED =>
      modify (set_usb_configured true) ;;
      emit (gpio_pin_set_dt 1)
  | USB_DC_DISCONNECTED =>
      modify (set_usb_configured false) ;;
      emit (gpio_pin_set_dt 0)
  | USB_DC_OTHER _ => ret tt
  end.

(** ** Report relay *)

(** notify_func(conn, params, data, length).  [params] is the registered
    [subscribe_params]; [data] is [None] for a NULL payload, and the host
    passes the payload's byte count as [length]. *)
Definition notify_func (conn : bt_conn) (data : option (list byte))
    (length : Z) : M Z :=
  match data with
  | None =>
      modify (fun s =>
        set_subscribe_params
          {| sp_notify := sp_notify (subscribe_params s);
             sp_value_handle := 0;
             sp_ccc_handle := sp_ccc_handle (subscribe_params s);
             sp_end_handle := sp_end_handle (subscribe_params s);
             sp_value := sp_value (subscribe_params s) |} s) ;;
      ret BT_GATT_ITER_STOP
  | Some d =>
      when (8 <=? length)
        (modify (set_hid_report (firstn 8 d)) ;;
         s <- get ;;
         when (usb_configured s && is_some (hid_dev s))
           (_ <- call (hid_int_ep_write (hid_report s)) ;; ret tt)) ;;
      ret BT_GATT_ITER_CONTINUE
  end.

(** subscribe_to_reports(conn, value_handle); the handle sums are stored
    into uint16_t fields. *)
Definition subscribe_to_reports (conn : bt_conn) (value_handle : Z) : M unit :=
  modify (set_subscribe_params subscribe_params_zero) ;;
  modify (set_subscribe_params
            {| sp_notify := true;
               sp_value_handle := value_handle;
               sp_ccc_handle := wrap16 (value_handle + 1);
               sp_end_handle := 0;
               sp_value := BT_GATT_CCC_NOTIFY |}) ;;
  s <- get ;;
  err <- call (bt_gatt_subscribe conn (subscribe_params s)) ;;
  if zneq err 0 && zneq err (- EALREADY) then
    modify (fun s =>
      set_subscribe_params
        {| sp_notify := sp_notify (subscribe_params s);
           sp_value_handle := sp_value_handle (subscribe_params s);
           sp_ccc_handle := 0;
           sp_end_handle := wrap16 (value_handle + 5);
           sp_value := sp_value (subscribe_params s) |} s) ;;
    s <- get ;;
    err <- call (bt_gatt_subscribe conn (subscribe_params s)) ;;
    if zneq err 0 && zneq err (- EALREADY) then ret tt else ret tt
  else ret tt.

(** ** GATT discovery *)

Definition is_primary (t : discover_type) : bool :=
  match t with BT_GATT_DISCOVER_PRIMARY => true | _ => false end.

(** discover_func(conn, attr, params).  [params] is the registered
    [discover_params] (the only structure main.c ever passes to
    bt_gatt_discover).  The result is [None] where the C code would hand a
    NULL uuid pointer to bt_uuid_cmp. *)
Definition discover_func (conn : bt_conn) (attr : option bt_gatt_attr)
    : World -> option (Z * World) :=
  fun w =>
    let params := discover_params (mem w) in
    match attr with
    | None =>
        if is_primary (dp_type params) && service_found (mem w) then
          Some ((modify (set_service_found false) ;;
                 modify (set_discover_params discover_params_zero) ;;
                 modify (fun s =>
                   set_discover_params
                     {| dp_uuid := Some BT_UUID_HIDS_REPORT_VAL;
                        dp_func := true;
                        dp_start_handle := service_handle s;
                        dp_end_handle := 0xffff;
                        dp_type := BT_GATT_DISCOVER_CHARACTERISTIC |} s) ;;
                 s <- get ;;
                 _ <- call (bt_gatt_discover conn (discover_params s)) ;;
                 ret BT_GATT_ITER_STOP) w)
        else
          Some ((modify (set_discover_params discover_params_zero) ;;
                 ret BT_GATT_ITER_STOP) w)
    | Some a =>
        match dp_type params with
        | BT_GATT_DISCOVER_PRIMARY =>
            match dp_uuid params with
            | None => None
            | Some u =>
                Some ((when (u =? BT_UUID_HIDS_VAL)
                         (modify (set_service_found true) ;;
                          modify (set_service_handle (handle a))) ;;
                       ret BT_GATT_ITER_CONTINUE) w)
            end
        | BT_GATT_DISCOVER_CHARACTERISTIC =>
            match dp_uuid params with
            | None => None
            | Some u =>
                if u =? BT_UUID_HIDS_REPORT_VAL then
                  Some ((modify (set_discover_params discover_params_zero) ;;
                         subscribe_to_reports conn (attr_value_handle a) ;;
                         ret BT_GATT_ITER_STOP) w)
                else Some (ret BT_GATT_ITER_CONTINUE w)
            end
        | _ => Some (ret BT_GATT_ITER_CONTINUE w)
        end
    end.

(** ** Connection lifecycle *)

Definition start_scan : M unit :=
  s <- get ;;
  let already_connected := is_some (current_conn s) in
  if already_connected then ret tt
  else
    err <- call bt_le_scan_start ;;
    if zneq err 0 then ret tt  (* logged, return *)
    else ret tt.

Definition attempt_reconnect : M unit :=
  s <- get ;;
  let already_connected := is_some (current_conn s) in
  if already_connected then ret tt
  else if negb (keyboard_paired s) then start_scan
  else
    err <- call (bt_conn_le_create (keyboard_addr s)) ;;
    if zneq err 0 then start_scan
    else emit (bt_conn_unref {| conn_dst := keyboard_addr s |}).

(** connected(conn, err) *)
Definition connected (conn : bt_conn) (err : Z) : M unit :=
  if zneq err 0 then
    s <- get ;;
    match current_conn s with
    | Some c => emit (bt_conn_unref c) ;; modify (set_current_conn None)
    | None => ret tt
    end ;;
    emit (k_sleep 1000) ;;
    s <- get ;;
    if keyboard_paired s then attempt_reconnect else start_scan
  else
    emit (bt_conn_ref conn) ;;
    modify (set_current_conn (Some conn)) ;;
    modify (set_keyboard_addr (conn_dst conn)) ;;
    modify (set_keyboard_paired true) ;;
    s <- get ;;
    _ <- call (settings_save_one (Some (keyboard_addr s))) ;;
    modify (set_discover_params
              {| dp_uuid := Some BT_UUID_HIDS_VAL;
                 dp_func := true;
                 dp_start_handle := BT_ATT_FIRST_ATTRIBUTE_HANDLE;
                 dp_end_handle := BT_ATT_LAST_ATTRIBUTE_HANDLE;
                 dp_type := BT_GATT_DISCOVER_PRIMARY |}) ;;
    s <- get ;;
    err <- call (bt_gatt_discover conn (discover_params s)) ;;
    if zneq err 0 then ret tt else ret tt.

(** disconnected(conn, reason) *)
Definition disconnected (conn : bt_conn) (reason : Z) : M unit :=
  s <- get ;;
  match current_conn s with
  | Some c => emit (bt_conn_unref c) ;; modify (set_current_conn None)
  | None => ret tt
  end ;;
  modify (set_hid_report (zero_bytes 8)) ;;
  s <- get ;;
  when (usb_configured s && is_some (hid_dev s))
    (_ <- call (hid_int_ep_write (hid_report s)) ;; ret tt) ;;
  emit (k_sleep 1000) ;;
  s <- get ;;
  if keyboard_paired s then attempt_reconnect else start_scan.

(** ** Scanning *)

(** device_found(data, user_data); the result tells bt_data_parse whether
    to go on with the next element. *)
Definition device_found (data : bt_data) (addr : bt_addr_le_t) : M bool :=
  if (bd_type data =? BT_DATA_NAME_COMPLETE) ||
     (bd_type data =? BT_DATA_NAME_SHORTENED) then
    let name := copy_name (bd_data data) in
    if strstr name TARGET_DEVICE_NAME ||
       strstr name TARGET_DEVICE_NAME_ALT ||
       strstr name TARGET_DEVICE_NAME_ALT2 then
      err <- call bt_le_scan_stop ;;
      if zneq err 0 then ret true
      else
        emit (k_sleep 100) ;;
        err <- call (bt_conn_le_create addr) ;;
        (if zneq err 0 then
           emit (k_sleep 1000) ;;
           start_scan
         else emit (bt_conn_unref {| conn_dst := addr |})) ;;
        ret false
    else ret true
  else ret true.

(** bt_data_parse(ad, device_found, addr): the host calls the function on
    each element until it answers false. *)
Fixpoint bt_data_parse (ad : list bt_data) (addr : bt_addr_le_t) : M unit :=
  match ad with
  | [] => ret tt
  | d :: rest =>
      continue <- device_found d addr ;;
      if continue then bt_data_parse rest addr else ret tt
  end.

Definition scan_cb (addr : bt_addr_le_t) (ad : list bt_data) : M unit :=
  bt_data_parse ad addr.

(** ** Button *)

(** button_work_handler(work) *)
Definition button_work_handler : M unit :=
  s <- get ;;
  if button_double_press s then
    s <- get ;;
    match current_conn s with
    | Some c =>
        _ <- call (bt_conn_disconnect c BT_HCI_ERR_REMOTE_USER_TERM_CONN) ;;
        emit (bt_conn_unref c) ;;
        modify (set_current_conn None)
    | None => ret tt
    end ;;
    modify (set_keyboard_paired false) ;;
    modify (set_keyboard_addr addr_zero) ;;
    _ <- call (settings_save_one None) ;;
    emit (k_sleep 100) ;;
    start_scan ;;
    modify (set_button_double_press false)
  else
    s <- get ;;
    let should_reconnect :=
      negb (is_some (current_conn s)) && keyboard_paired s in
    if should_reconnect then attempt_reconnect else ret tt.

(** button_pressed(dev, cb, pins); [now] is what k_uptime_get() returns,
    held in a uint64_t. *)
Definition button_pressed (now : Z) : M unit :=
  s <- get ;;
  (if wrap64 (now - button_press_time s) <? 500
   then modify (set_button_double_press true)
   else modify (set_button_double_press false)) ;;
  modify (set_button_press_time now) ;;
  emit k_work_submit.

(** ** The main loop *)

(** One turn of while (1) in main. *)
Definition main_loop_body : M unit :=
  emit (k_sleep 1000) ;;
  s <- get ;;
  let is_connected := is_some (current_conn s) in
  if negb is_connected then emit gpio_pin_toggle_dt else ret tt.

Fixpoint main_loop (turns : nat) : M unit :=
  match turns with
  | O => ret tt
  | S n => main_loop_body ;; main_loop n
  end.

(** ** The host's side of a discovery procedure *)

(** What main.c relies on from bt_gatt_discover: the attributes found are
    handed to the callback in handle order until it answers
    BT_GATT_ITER_STOP; once they are exhausted the callback is called a
    last time with NULL. *)
Fixpoint gatt_deliver (conn : bt_conn) (found : list bt_gatt_attr)
    (w : World) : option World :=
  match found with
  | [] =>
      match discover_func conn None w with
      | None => None
      | Some (_, w') => Some w'
      end
  | a :: rest =>
      match discover_func conn (Some a) w with
      | None => None
      | Some (r, w') =>
          if r =? BT_GATT_ITER_STOP then Some w' else gatt_deliver conn rest w'
      end
  end.

End Firmware.

(** The attribute table of a peripheral, as far as discovery by UUID and
    handle range looks at it. *)
Record gatt_entry := {
  ge_handle : Z;
  ge_kind : discover_type;
  ge_uuid : Z;
  ge_value_handle : Z
}.

Definition discover_type_eqb (a b : discover_type) : bool :=
  match a, b with
  | BT_GATT_DISCOVER_PRIMARY, BT_GATT_DISCOVER_PRIMARY
  | BT_GATT_DISCOVER_SECONDARY, BT_GATT_DISCOVER_SECONDARY
  | BT_GATT_DISCOVER_INCLUDE, BT_GATT_DISCOVER_INCLUDE
  | BT_GATT_DISCOVER_CHARACTERISTIC, BT_GATT_DISCOVER_CHARACTERISTIC
  | BT_GATT_DISCOVER_DESCRIPTOR, BT_GATT_DISCOVER_DESCRIPTOR
  | BT_GATT_DISCOVER_ATTRIBUTE, BT_GATT_DISCOVER_ATTRIBUTE => true
  | _, _ => false
  end.

(** The attributes a discovery procedure with parameters [p] finds in
    [table]: those of the requested kind and UUID inside the handle range. *)
Definition gatt_found (table : list gatt_entry) (p : bt_gatt_discover_params)
    : list bt_gatt_attr :=
  map (fun e => {| handle := ge_handle e;
                   attr_value_handle := ge_value_handle e |})
      (filter (fun e =>
                 discover_type_eqb (ge_kind e) (dp_type p) &&
                 match dp_uuid p with
                 | Some u => ge_uuid e =? u
                 | None => true
                 end &&
                 (dp_start_handle p <=? ge_handle e) &&
                 (ge_handle e <=? dp_end_handle p))
              table).

(** A connection from the connected callback to the end of discovery: the
    host runs the procedure connected() asked for and then, if the callback
    asked for another one, that one too. *)
Definition discovery_session (stack : list event -> Z) (conn : bt_conn)
    (table : list gatt_entry) (w : World) : option World :=
  let w0 := snd (connected stack conn 0 w) in
  match gatt_deliver stack conn (gatt_found table (discover_params (mem w0))) w0 with
  | None => None
  | Some w1 =>
      if dp_func (discover_params (mem w1)) then
        gatt_deliver stack conn (gatt_found table (discover_params (mem w1))) w1
      else Some w1
  end.

(** ** Concrete environments and states used in the examples *)

(** The statics as their initialisers leave them. *)
Definition boot_state : State :=
  {| current_conn := None;
     subscribe_params := subscribe_params_zero;
     discover_params := discover_params_zero;
     keyboard_addr := addr_zero;
     keyboard_paired := false;
     hid_report := zero_bytes 8;
     usb_configured := false;
     hid_dev := None;
     button_press_time := 0;
     button_double_press := false;
     service_found := false;
     service_handle := 0 |}.

(** After main has bound HID_0 and the host has configured USB. *)
Definition ready_state : State :=
  set_usb_configured true (set_hid_dev (Some HID_0) boot_state).

Definition kinesis_addr : bt_addr_le_t :=
  {| addr_type := x01; addr_a := [xc0; x11; x22; x33; x44; xd5] |}.

Definition kinesis_conn : bt_conn := {| conn_dst := kinesis_addr |}.

Definition paired_state : State :=
  set_keyboard_paired true (set_keyboard_addr kinesis_addr ready_state).

Definition linked_state : State :=
  set_current_conn (Some kinesis_conn) paired_state.

(** Every call succeeds. *)
Definition stack_ok : list event -> Z := fun _ => 0.

(** Every call fails with -EIO. *)
Definition stack_eio : list event -> Z := fun _ => -5.

(** Only bt_conn_le_create fails. *)
Definition stack_no_create : list event -> Z :=
  fun l => match last l k_work_submit with
           | bt_conn_le_create _ => -5
           | _ => 0
           end.

(** The first subscription is refused, the second accepted. *)
Definition stack_ccc_retry : list event -> Z :=
  fun l => match last l k_work_submit with
           | bt_gatt_subscribe _ p => if sp_ccc_handle p =? 0 then 0 else -22
           | _ => 0
           end.

(** A peripheral whose handles 10..20 hold three services; the HID service
    starts at handle 15 and its report characteristic is declared at handle
    18 with its value at handle 19. *)
Definition kinesis_table : list gatt_entry :=
  [ {| ge_handle := 10; ge_kind := BT_GATT_DISCOVER_PRIMARY;
       ge_uuid := 0x1800; ge_value_handle := 0 |};
    {| ge_handle := 11; ge_kind := BT_GATT_DISCOVER_CHARACTERISTIC;
       ge_uuid := 0x2a00; ge_value_handle := 12 |};
    {| ge_handle := 13; ge_kind := BT_GATT_DISCOVER_PRIMARY;
       ge_uuid := 0x180f; ge_value_handle := 0 |};
    {| ge_handle := 14; ge_kind := BT_GATT_DISCOVER_CHARACTERISTIC;
       ge_uuid := 0x2a19; ge_value_handle := 14 |};
    {| ge_handle := 15; ge_kind := BT_GATT_DISCOVER_PRIMARY;
       ge_uuid := 0x1812; ge_value_handle := 0 |};
    {| ge_handle := 16; ge_kind := BT_GATT_DISCOVER_CHARACTERISTIC;
       ge_uuid := 0x2a4e; ge_value_handle := 17 |};
    {| ge_handle := 18; ge_kind := BT_GATT_DISCOVER_CHARACTERISTIC;
       ge_uuid := 0x2a4d; ge_value_handle := 19 |};
    {| ge_handle := 20; ge_kind := BT_GATT_DISCOVER_DESCRIPTOR;
       ge_uuid := 0x2902; ge_value_handle := 0 |} ].

(** The events a handler adds to the log when it drops the live handle,
    and when it pushes the cleared report. *)
Definition released (s : State) : list event :=
  match current_conn s with
  | Some c => [bt_conn_unref c]
  | None => []
  end.

Definition pushed_zero (s : State) : list event :=
  if usb_configured s && is_some (hid_dev s)
  then [hid_int_ep_write (zero_bytes 8)]
  else [].

(** The parameters of the service phase, as connected() sets them. *)
Definition service_phase : bt_gatt_discover_params :=
  {| dp_uuid := Some BT_UUID_HIDS_VAL;
     dp_func := true;
     dp_start_handle := BT_ATT_FIRST_ATTRIBUTE_HANDLE;
     dp_end_handle := BT_ATT_LAST_ATTRIBUTE_HANDLE;
     dp_type := BT_GATT_DISCOVER_PRIMARY |}.

(** The parameters of the characteristic phase started from the service at
    handle [start]. *)
Definition characteristic_phase (start : Z) : bt_gatt_discover_params :=
  {| dp_uuid := Some BT_UUID_HIDS_REPORT_VAL;
     dp_func := true;
     dp_start_handle := start;
     dp_end_handle := 0xffff;
     dp_type := BT_GATT_DISCOVER_CHARACTERISTIC |}.

(** The subscription parameters of the first attempt (control point at the
    handle after the value) and of the second (control point left to the
    host to find, up to five handles further). *)
Definition heuristic_params (value_handle : Z) : bt_gatt_subscribe_params :=
  {| sp_notify := true;
     sp_value_handle := value_handle;
     sp_ccc_handle := wrap16 (value_handle + 1);
     sp_end_handle := 0;
     sp_value := BT_GATT_CCC_NOTIFY |}.

Definition fallback_params (value_handle : Z) : bt_gatt_subscribe_params :=
  {| sp_notify := true;
     sp_value_handle := value_handle;
     sp_ccc_handle := 0;
     sp_end_handle := wrap16 (value_handle + 5);
     sp_value := BT_GATT_CCC_NOTIFY |}.

(** The events the unpair path adds when it drops the live handle. *)
Definition dropped (s : State) : list event :=
  match current_conn s with
  | Some c => [bt_conn_disconnect c BT_HCI_ERR_REMOTE_USER_TERM_CONN;
               bt_conn_unref c]
  | None => []
  end.

(** What the settings store holds for ble_bridge/addr after the calls of a
    log, starting from [init]. *)
Definition pairing_store (init : option bt_addr_le_t) (l : list event)
    : option bt_addr_le_t :=
  fold_left (fun st e =>
               match e with
               | settings_save_one v => v
               | _ => st
               end) l init.

Definition idle_world : World := {| mem := ready_state; log := [] |}.

(** An advertised complete local name. *)
Definition adv_name : bt_data :=
  {| bd_type := BT_DATA_NAME_COMPLETE;
     bd_data := list_byte_of_string "Adv360 Pro" |}.

(** Calls that start a scan or a connection. *)
Definition is_link_attempt (e : event) : bool :=
  match e with
  | bt_le_scan_start | bt_conn_le_create _ => true
  | _ => false
  end.

Definition link_attempts (l : list event) : nat :=
  List.length (filter is_link_attempt l).

(** ** Settings and boot *)

Definition EINVAL : Z := 22.

(** The bytes of a bt_addr_le_t as they lie in memory: the type byte, then
    the address bytes; sizeof(bt_addr_le_t) is 7. *)
Definition addr_bytes (a : bt_addr_le_t) : list byte := addr_type a :: addr_a a.

Definition addr_of_bytes (bs : list byte) : bt_addr_le_t :=
  {| addr_type := hd x00 bs; addr_a := firstn 6 (tl bs) |}.

(** read_cb(cb_arg, &object, size): the stored value is copied over the
    start of the object, at most [size] bytes of it. *)
Definition read_into (object : list byte) (size : nat) (stored : list byte)
    : list byte :=
  firstn size stored ++ skipn (Nat.min size (List.length stored)) object.

(** settings_set(name, len, read_cb, cb_arg); [stored] is the value read_cb
    reads from, [len] its length as the settings subsystem reports it. *)
Definition settings_set (name : string) (len : Z) (stored : list byte) : M Z :=
  if String.eqb name "addr" then
    if zneq len 7 then ret (- EINVAL)
    else
      modify (fun s =>
        set_keyboard_addr
          (addr_of_bytes (read_into (addr_bytes (keyboard_addr s)) 7 stored)) s) ;;
      modify (set_keyboard_paired true) ;;
      ret 0
  else ret 0.

(** settings_load(), seen from main.c: the subsystem calls the handler
    registered for "ble_bridge" with the entry stored under
    "ble_bridge/addr", when there is one. *)
Definition settings_load (entry : option (list byte)) : M unit :=
  match entry with
  | Some stored =>
      _ <- settings_set "addr" (Z.of_nat (List.length stored)) stored ;;
      ret tt
  | None => ret tt
  end.

(** What the initialisation calls of main answer.  These calls (GPIO, USB
    HID, Bluetooth enable, settings registration) are not part of the call
    log; main only branches on their answers. *)
Record init_results := {
  led_ready : bool;
  led_configure : Z;
  button_ready : bool;
  button_configure : Z;
  button_interrupt : Z;
  hid_binding : option device;
  usb_hid_init : Z;
  usb_enable : Z;
  bt_enable : Z
}.

(** main(), with the while (1) loop run for [turns] turns.  The result is
    [Some (-1)] where main returns -1 and [None] where it is still in its
    loop. *)
Definition main (stack : list event -> Z) (r : init_results)
    (entry : option (list byte)) (turns : nat) : M (option Z) :=
  if negb (led_ready r) then ret (Some (-1))
  else if zneq (led_configure r) 0 then ret (Some (-1))
  else if negb (button_ready r) then ret (Some (-1))
  else if zneq (button_configure r) 0 then ret (Some (-1))
  else if zneq (button_interrupt r) 0 then ret (Some (-1))
  else
    modify (set_hid_dev (hid_binding r)) ;;
    if negb (is_some (hid_binding r)) then ret (Some (-1))
    else if zneq (usb_hid_init r) 0 then ret (Some (-1))
    else if zneq (usb_enable r) 0 then ret (Some (-1))
    else if zneq (bt_enable r) 0 then ret (Some (-1))
    else
      settings_load entry ;;
      emit (k_sleep 1000) ;;
      s <- get ;;
      (if keyboard_paired s then attempt_reconnect stack
       else start_scan stack) ;;
      main_loop turns ;;
      ret None.

(** Every initialisation call succeeds. *)
Definition init_ok (r : init_results) : Prop :=
  led_ready r = true /\ led_configure r = 0 /\
  button_ready r = true /\ button_configure r = 0 /\
  button_interrupt r = 0 /\ hid_binding r = Some HID_0 /\
  usb_hid_init r = 0 /\ usb_enable r = 0 /\ bt_enable r = 0.

Definition all_ok : init_results :=
  {| led_ready := true; led_configure := 0; button_ready := true;
     button_configure := 0; button_interrupt := 0;
     hid_binding := Some HID_0; usb_hid_init := 0; usb_enable := 0;
     bt_enable := 0 |}.

Definition boot_world : World := {| mem := boot_state; log := [] |}.

(** ** The callbacks as the host and the kernel run them *)

(** A notification's length argument is the byte count of its payload. *)
Definition payload_length (data : option (list byte)) : Z :=
  match data with
  | Some d => Z.of_nat (List.length d)
  | None => 0
  end.

Inductive callback :=
| on_usb_status (status : usb_dc_status_code)
| on_notify (conn : bt_conn) (data : option (list byte))
| on_discover (conn : bt_conn) (attr : option bt_gatt_attr)
| on_connected (conn : bt_conn) (err : Z)
| on_disconnected (conn : bt_conn) (reason : Z)
| on_scan (addr : bt_addr_le_t) (ad : list bt_data)
| on_button_pressed (now : Z)
| on_button_work
| on_main_loop.

(** One callback run to completion; [None] where discover_func would pass
    a NULL uuid on. *)
Definition run_callback (stack : list event -> Z) (c : callback) (w : World)
    : option World :=
  match c with
  | on_usb_status status => Some (snd (usb_hid_status_cb status w))
  | on_notify conn data =>
      Some (snd (notify_func stack conn data (payload_length data) w))
  | on_discover conn attr =>
      match discover_func stack conn attr w with
      | Some (_, w') => Some w'
      | None => None
      end
  | on_connected conn err => Some (snd (connected stack conn err w))
  | on_disconnected conn reason => Some (snd (disconnected stack conn reason w))
  | on_scan addr ad => Some (snd (scan_cb stack addr ad w))
  | on_button_pressed now => Some (snd (button_pressed now w))
  | on_button_work => Some (snd (button_work_handler stack w))
  | on_main_loop => Some (snd (main_loop_body w))
  end.

Fixpoint run_callbacks (stack : list event -> Z) (cs : list callback)
    (w : World) : option World :=
  match cs with
  | [] => Some w
  | c :: rest =>
      match run_callback stack c w with
      | Some w' => run_callbacks stack rest w'
      | None => None
      end
  end.

(** ** Observations on a call log *)

Definition is_sink_write (e : event) : bool :=
  match e with hid_int_ep_write _ => true | _ => false end.

Definition sink_writes (l : list event) : list event := filter is_sink_write l.

(** A sink write carries 8 bytes. *)
Definition sink_write_ok (e : event) : Prop :=
  match e with
  | hid_int_ep_write r => List.length r = 8%nat
  | _ => True
  end.

(** The report buffer holds 8 bytes and so did every report written. *)
Definition report_sized (w : World) : Prop :=
  List.length (hid_report (mem w)) = 8%nat /\ Forall sink_write_ok (log w).

Definition is_connect_request (e : event) : bool :=
  match e with bt_conn_le_create _ => true | _ => false end.

Definition connect_requests (l : list event) : nat :=
  List.length (filter is_connect_request l).

(** The change a call makes to the number of connection references the
    firmware holds; [upto] is the log up to and including the call.  A
    connection object handed out by a successful bt_conn_le_create comes
    with a reference. *)
Definition ref_delta (stack : list event -> Z) (upto : list event)
    (e : event) : Z :=
  match e with
  | bt_conn_ref _ => 1
  | bt_conn_unref _ => -1
  | bt_conn_le_create _ => if zneq (stack upto) 0 then 0 else 1
  | _ => 0
  end.

Fixpoint refs_from (stack : list event -> Z) (before l : list event) : Z :=
  match l with
  | [] => 0
  | e :: rest =>
      ref_delta stack (before ++ [e]) e + refs_from stack (before ++ [e]) rest
  end.

Definition refs_held (stack : list event -> Z) (l : list event) : Z :=
  refs_from stack [] l.

(** The references the statics account for: one when a handle is stored. *)
Definition refs_stored (s : State) : Z :=
  if is_some (current_conn s) then 1 else 0.

(** The pairing record the statics describe. *)
Definition pairing_record (s : State) : option bt_addr_le_t :=
  if keyboard_paired s then Some (keyboard_addr s) else None.

(** An advertised name of 41 bytes whose last ten are the target name. *)
Definition long_adv_name : bt_data :=
  {| bd_type := BT_DATA_NAME_COMPLETE;
     bd_data := list_byte_of_string "Keyboard from the office, 2nd: Adv360 Pro" |}.

(** A second advertiser that carries the target name, and the run in which
    it is met while a link is up: boot with a stored address, the direct
    connect fails and the scan that follows is left running; a single
    press connects directly; then the scan reports the second advertiser. *)
Definition other_addr : bt_addr_le_t :=
  {| addr_type := x01; addr_a := [xc0; x55; x66; x77; x88; xe9] |}.

Definition other_conn : bt_conn := {| conn_dst := other_addr |}.

(** Only the first bt_conn_le_create of a log fails. *)
Definition stack_first_create_fails : list event -> Z :=
  fun l => match last l k_work_submit with
           | bt_conn_le_create _ =>
               if (connect_requests l =? 1)%nat then -5 else 0
           | _ => 0
           end.

Definition booted_scanning : World :=
  snd (main stack_first_create_fails all_ok
         (Some (addr_bytes kinesis_addr)) 0 boot_world).

Definition press_then_link : list callback :=
  [on_button_pressed 5000; on_button_work; on_connected kinesis_conn 0].

(** * Properties *)

Ltac run :=
  unfold notify_func, subscribe_to_reports, start_scan, attempt_reconnect,
    connected, disconnected, device_found, button_work_handler,
    button_pressed, main_loop_body, usb_hid_status_cb,
    bind, ret, get, modify, emit, call, when; simpl.

Lemma firstn_whole {A} (n : nat) (l : list A) :
  List.length l = n -> firstn n l = l.
Proof.
  intros <-. apply firstn_all.
Qed.

(** ** Report relay *)

(** C1. A notification with a payload, while USB is configured and the HID
    device is bound: with at least 8 bytes the first 8 become the report
    buffer and are written, as they are, to the sink (an 8-byte payload is
    written whole); with fewer than 8 bytes nothing changes and nothing is
    written. *)
Theorem notify_func_report_integrity :
  forall stack conn w data length d,
    length = Z.of_nat (List.length data) ->
    usb_configured (mem w) = true ->
    hid_dev (mem w) = Some d ->
    (8 <= length ->
       notify_func stack conn (Some data) length w =
       (BT_GATT_ITER_CONTINUE,
        {| mem := set_hid_report (firstn 8 data) (mem w);
           log := log w ++ [hid_int_ep_write (firstn 8 data)] |})) /\
    (length = 8 -> firstn 8 data = data) /\
    (length < 8 ->
       notify_func stack conn (Some data) length w =
       (BT_GATT_ITER_CONTINUE, w)).
Proof.
  intros stack conn w data length d Hlen Husb Hdev.
  repeat split.
  - intros H8. run.
    apply Z.leb_le in H8. rewrite H8. simpl.
    rewrite Husb, Hdev. reflexivity.
  - intros H8. apply firstn_whole. lia.
  - intros H8. run.
    apply Z.leb_gt in H8. rewrite H8. reflexivity.
Qed.

Lemma notify_func_report_integrity_witness :
  notify_func stack_ok kinesis_conn
    (Some [x02; x00; x04; x05; x00; x00; x00; x00]) 8
    {| mem := ready_state; log := [] |} =
  (BT_GATT_ITER_CONTINUE,
   {| mem := set_hid_report [x02; x00; x04; x05; x00; x00; x00; x00] ready_state;
      log := [hid_int_ep_write [x02; x00; x04; x05; x00; x00; x00; x00]] |}).
Proof.
  apply (proj1 (notify_func_report_integrity stack_ok kinesis_conn
                  {| mem := ready_state; log := [] |}
                  [x02; x00; x04; x05; x00; x00; x00; x00] 8 HID_0
                  eq_refl eq_refl eq_refl)).
  simpl. lia.
Defined.

(** ** Connection lifecycle *)

Lemma start_scan_idle :
  forall stack w,
    current_conn (mem w) = None ->
    start_scan stack w =
    (tt, {| mem := mem w; log := log w ++ [bt_le_scan_start] |}).
Proof.
  intros stack w H. run. rewrite H. simpl.
  destruct (zneq _ 0); reflexivity.
Qed.

Lemma start_scan_live :
  forall stack w c,
    current_conn (mem w) = Some c -> start_scan stack w = (tt, w).
Proof.
  intros stack w c H. run. rewrite H. reflexivity.
Qed.

Lemma attempt_reconnect_live :
  forall stack w c,
    current_conn (mem w) = Some c -> attempt_reconnect stack w = (tt, w).
Proof.
  intros stack w c H. run. rewrite H. reflexivity.
Qed.

Lemma attempt_reconnect_unpaired :
  forall stack w,
    current_conn (mem w) = None ->
    keyboard_paired (mem w) = false ->
    attempt_reconnect stack w = start_scan stack w.
Proof.
  intros stack w Hc Hp.
  unfold attempt_reconnect, bind, get. rewrite Hc, Hp. reflexivity.
Qed.

Lemma attempt_reconnect_paired :
  forall stack w,
    current_conn (mem w) = None ->
    keyboard_paired (mem w) = true ->
    let w' := {| mem := mem w;
                 log := log w ++ [bt_conn_le_create (keyboard_addr (mem w))] |} in
    attempt_reconnect stack w =
    if zneq (stack (log w')) 0 then start_scan stack w'
    else (tt, {| mem := mem w;
                 log := log w' ++
                        [bt_conn_unref {| conn_dst := keyboard_addr (mem w) |}] |}).
Proof.
  intros stack w Hc Hp.
  unfold attempt_reconnect, bind, get, call, emit. rewrite Hc, Hp. simpl.
  destruct (zneq _ 0); reflexivity.
Qed.

Lemma start_scan_mem :
  forall stack w, mem (snd (start_scan stack w)) = mem w.
Proof.
  intros stack w. destruct (current_conn (mem w)) eqn:Hc.
  - rewrite (start_scan_live stack w b Hc). reflexivity.
  - rewrite (start_scan_idle stack w Hc). reflexivity.
Qed.

Lemma attempt_reconnect_mem :
  forall stack w, mem (snd (attempt_reconnect stack w)) = mem w.
Proof.
  intros stack w. destruct (current_conn (mem w)) eqn:Hc.
  - rewrite (attempt_reconnect_live stack w b Hc). reflexivity.
  - destruct (keyboard_paired (mem w)) eqn:Hp.
    + rewrite (attempt_reconnect_paired stack w Hc Hp). cbv zeta.
      match goal with |- context [if ?b then _ else _] => destruct b end.
      * rewrite start_scan_mem. reflexivity.
      * reflexivity.
    + rewrite (attempt_reconnect_unpaired stack w Hc Hp).
      apply start_scan_mem.
Qed.

Lemma zneq_true (a b : Z) : a <> b -> zneq a b = true.
Proof.
  intros H. unfold zneq. apply Z.eqb_neq in H. rewrite H. reflexivity.
Qed.

Lemma zneq_false (a : Z) : zneq a a = false.
Proof.
  unfold zneq. rewrite Z.eqb_refl. reflexivity.
Qed.

(** C2. A disconnect, whatever its reason: the live handle is released, the
    report buffer is zeroed and (the sink being ready) pushed, the handler
    sleeps one second and then goes on as attempt_reconnect when paired and
    as start_scan otherwise.  The call that follows the sleep is the connect
    to the stored address or the scan start, and no write other than the
    zero report reaches the sink. *)
Theorem disconnected_clears_and_rearms :
  forall stack conn reason w,
    let w' := {| mem := set_hid_report (zero_bytes 8)
                          (set_current_conn None (mem w));
                 log := log w ++ released (mem w) ++ pushed_zero (mem w) ++
                        [k_sleep 1000] |} in
    disconnected stack conn reason w =
      (if keyboard_paired (mem w)
       then attempt_reconnect stack w'
       else start_scan stack w') /\
    (exists tail,
       log (snd (disconnected stack conn reason w)) =
         log w' ++
         (if keyboard_paired (mem w)
          then bt_conn_le_create (keyboard_addr (mem w))
          else bt_le_scan_start) :: tail /\
       forall r, ~ In (hid_int_ep_write r) tail) /\
    current_conn (mem (snd (disconnected stack conn reason w))) = None /\
    hid_report (mem (snd (disconnected stack conn reason w))) = zero_bytes 8.
Proof.
  intros stack conn reason w w'.
  assert (Hrun : disconnected stack conn reason w =
                 (if keyboard_paired (mem w)
                  then attempt_reconnect stack w'
                  else start_scan stack w')).
  { subst w'. destruct w as [m l]. unfold disconnected, released, pushed_zero.
    unfold bind, get, modify, emit, call, when, ret. simpl.
    destruct (current_conn m) eqn:Hc; simpl;
      destruct (usb_configured m && is_some (hid_dev m)); simpl;
      rewrite <- ?app_assoc; simpl;
      destruct m as [? ? ? ? paired ? ? ? ? ? ? ?]; simpl in *; subst;
      destruct paired; reflexivity. }
  assert (Hc' : current_conn (mem w') = None) by reflexivity.
  rewrite Hrun. split; [reflexivity|].
  destruct (keyboard_paired (mem w)) eqn:Hp.
  - rewrite (attempt_reconnect_paired stack w' Hc' Hp). simpl.
    destruct (zneq _ 0).
    + rewrite start_scan_idle by reflexivity. simpl.
      split; [|split; reflexivity].
      exists [bt_le_scan_start]. rewrite <- !app_assoc. simpl.
      split; [reflexivity|].
      intros r [H|[]]. discriminate.
    + simpl. split; [|split; reflexivity].
      exists [bt_conn_unref {| conn_dst := keyboard_addr (mem w) |}].
      rewrite <- !app_assoc. simpl.
      split; [reflexivity|].
      intros r [H|[]]. discriminate.
  - rewrite start_scan_idle by reflexivity. simpl.
    split; [|split; reflexivity].
    exists []. split; [reflexivity|]. intros r [].
Qed.

(** X20. The handle lives in the one static current_conn.  While it is
    live, start_scan and attempt_reconnect return at once: nothing is asked
    of the host, neither a scan nor a connect, and the world is as it was.
    In any state the two functions leave the statics, the handle among
    them, as they found them. *)
Theorem live_handle_blocks_scan_and_reconnect :
  forall stack w c,
    current_conn (mem w) = Some c ->
    start_scan stack w = (tt, w) /\
    attempt_reconnect stack w = (tt, w) /\
    link_attempts (log (snd (start_scan stack w))) = link_attempts (log w) /\
    link_attempts (log (snd (attempt_reconnect stack w))) =
      link_attempts (log w) /\
    (forall w0, mem (snd (start_scan stack w0)) = mem w0) /\
    (forall w0, mem (snd (attempt_reconnect stack w0)) = mem w0).
Proof.
  intros stack w c H.
  rewrite (start_scan_live stack w c H).
  rewrite (attempt_reconnect_live stack w c H).
  repeat split.
  - intros w0. apply start_scan_mem.
  - intros w0. apply attempt_reconnect_mem.
Qed.

Lemma live_handle_blocks_scan_and_reconnect_witness :
  start_scan stack_ok {| mem := linked_state; log := [] |} =
    (tt, {| mem := linked_state; log := [] |}) /\
  attempt_reconnect stack_ok {| mem := linked_state; log := [] |} =
    (tt, {| mem := linked_state; log := [] |}).
Proof.
  pose proof (live_handle_blocks_scan_and_reconnect stack_ok
                {| mem := linked_state; log := [] |} kinesis_conn eq_refl) as H.
  split.
  - exact (proj1 H).
  - exact (proj1 (proj2 H)).
Defined.

(** C4. attempt_reconnect with no live handle: unpaired, it is start_scan;
    paired, its first call is the connect to the stored address, with no
    scan before it; when that call succeeds nothing else is asked but the
    release of the pending connection object, and when it fails the
    function goes on as start_scan. *)
Theorem attempt_reconnect_paths :
  forall stack w,
    current_conn (mem w) = None ->
    let create := bt_conn_le_create (keyboard_addr (mem w)) in
    let w' := {| mem := mem w; log := log w ++ [create] |} in
    (keyboard_paired (mem w) = false ->
       attempt_reconnect stack w = start_scan stack w) /\
    (keyboard_paired (mem w) = true ->
       stack (log w ++ [create]) = 0 ->
       attempt_reconnect stack w =
       (tt, {| mem := mem w;
               log := log w ++
                      [create;
                       bt_conn_unref {| conn_dst := keyboard_addr (mem w) |}] |})) /\
    (keyboard_paired (mem w) = true ->
       stack (log w ++ [create]) <> 0 ->
       attempt_reconnect stack w = start_scan stack w' /\
       snd (start_scan stack w') =
         {| mem := mem w; log := log w ++ [create; bt_le_scan_start] |}).
Proof.
  intros stack w Hc create w'. split; [|split].
  - intros Hp. exact (attempt_reconnect_unpaired stack w Hc Hp).
  - intros Hp Hok. rewrite (attempt_reconnect_paired stack w Hc Hp). simpl.
    fold create. rewrite Hok. simpl. rewrite <- app_assoc. reflexivity.
  - intros Hp Hfail. split.
    + rewrite (attempt_reconnect_paired stack w Hc Hp). simpl.
      fold create. rewrite (zneq_true _ _ Hfail). reflexivity.
    + rewrite start_scan_idle by exact Hc. simpl.
      rewrite <- app_assoc. reflexivity.
Qed.

Lemma attempt_reconnect_paths_witness :
  attempt_reconnect stack_no_create {| mem := paired_state; log := [] |} =
    start_scan stack_no_create
      {| mem := paired_state; log := [bt_conn_le_create kinesis_addr] |} /\
  snd (start_scan stack_no_create
         {| mem := paired_state; log := [bt_conn_le_create kinesis_addr] |}) =
    {| mem := paired_state;
       log := [bt_conn_le_create kinesis_addr; bt_le_scan_start] |}.
Proof.
  apply (proj2 (proj2 (attempt_reconnect_paths stack_no_create
                         {| mem := paired_state; log := [] |} eq_refl))).
  - reflexivity.
  - vm_compute. discriminate.
Defined.

(** ** Subscription *)

Lemma subscribe_to_reports_unfold :
  forall stack conn vh w,
    let w1 := {| mem := set_subscribe_params (heuristic_params vh) (mem w);
                 log := log w ++ [bt_gatt_subscribe conn (heuristic_params vh)] |} in
    let e1 := stack (log w1) in
    subscribe_to_reports stack conn vh w =
    if zneq e1 0 && zneq e1 (- EALREADY)
    then (tt, {| mem := set_subscribe_params (fallback_params vh) (mem w);
                 log := log w1 ++ [bt_gatt_subscribe conn (fallback_params vh)] |})
    else (tt, w1).
Proof.
  intros stack conn vh w. cbv zeta.
  unfold subscribe_to_reports, bind, get, modify, call, ret.
  cbn [mem log subscribe_params set_subscribe_params].
  fold (heuristic_params vh).
  match goal with |- context [zneq ?e 0 && _] => destruct (zneq e 0 && zneq e (- EALREADY)) end;
    [|reflexivity].
  cbn [mem log subscribe_params set_subscribe_params sp_notify sp_value_handle sp_value heuristic_params].
  fold (fallback_params vh).
  match goal with |- context [if ?b then _ else _] => destruct b end; reflexivity.
Qed.

Lemma subscribe_to_reports_first_call :
  forall stack conn vh w,
    exists tail,
      log (snd (subscribe_to_reports stack conn vh w)) =
      log w ++ bt_gatt_subscribe conn (heuristic_params vh) :: tail.
Proof.
  intros stack conn vh w. rewrite subscribe_to_reports_unfold.
  cbv zeta.
  match goal with |- context [if ?b then _ else _] => destruct b end; simpl.
  - exists [bt_gatt_subscribe conn (fallback_params vh)].
    rewrite <- app_assoc. reflexivity.
  - exists []. reflexivity.
Qed.

(** C6. subscribe_to_reports first asks for the subscription with the
    control point at the handle after the value handle (the sum is a
    uint16_t; below the last handle it is value_handle + 1).  When the host
    accepts, or answers -EALREADY, that is all.  When it refuses with
    anything else, one second request follows, with the control-point handle
    0 and an end handle so that the host looks the control point up in a
    handle range; whatever the host answers to that one, nothing more is
    asked. *)
Theorem subscribe_heuristic_then_fallback :
  forall stack conn vh w,
    0 <= vh < 2 ^ 16 ->
    let first := bt_gatt_subscribe conn (heuristic_params vh) in
    let second := bt_gatt_subscribe conn (fallback_params vh) in
    let e1 := stack (log w ++ [first]) in
    sp_value_handle (heuristic_params vh) = vh /\
    sp_ccc_handle (heuristic_params vh) = (vh + 1) mod 2 ^ 16 /\
    (vh < 0xffff -> sp_ccc_handle (heuristic_params vh) = vh + 1) /\
    (e1 = 0 \/ e1 = - EALREADY ->
       subscribe_to_reports stack conn vh w =
       (tt, {| mem := set_subscribe_params (heuristic_params vh) (mem w);
               log := log w ++ [first] |})) /\
    (e1 <> 0 -> e1 <> - EALREADY ->
       subscribe_to_reports stack conn vh w =
       (tt, {| mem := set_subscribe_params (fallback_params vh) (mem w);
               log := log w ++ [first; second] |}) /\
       sp_ccc_handle (fallback_params vh) = 0 /\
       sp_end_handle (fallback_params vh) = (vh + 5) mod 2 ^ 16).
Proof.
  intros stack conn vh w Hvh first second e1.
  split; [reflexivity|]. split; [reflexivity|]. split; [|split].
  - intros Hlt. simpl. unfold wrap16. apply Z.mod_small. lia.
  - intros He. rewrite subscribe_to_reports_unfold. cbv zeta.
    cbn [log]. fold first. fold e1.
    destruct He as [He|He]; rewrite He.
    + reflexivity.
    + rewrite zneq_false, andb_false_r. reflexivity.
  - intros H0 Hal. split; [|split; reflexivity].
    rewrite subscribe_to_reports_unfold. cbv zeta.
    cbn [log]. fold first. fold e1.
    rewrite (zneq_true _ _ H0), (zneq_true _ _ Hal).
    cbn [andb]. rewrite <- app_assoc. reflexivity.
Qed.

Lemma subscribe_heuristic_then_fallback_witness :
  subscribe_to_reports stack_ccc_retry kinesis_conn 19
    {| mem := linked_state; log := [] |} =
  (tt, {| mem := set_subscribe_params (fallback_params 19) linked_state;
          log := [bt_gatt_subscribe kinesis_conn (heuristic_params 19);
                  bt_gatt_subscribe kinesis_conn (fallback_params 19)] |}) /\
  sp_ccc_handle (fallback_params 19) = 0 /\
  sp_end_handle (fallback_params 19) = (19 + 5) mod 2 ^ 16.
Proof.
  assert (Hrange : 0 <= 19 < 2 ^ 16) by lia.
  apply (proj2 (proj2 (proj2 (proj2
           (subscribe_heuristic_then_fallback stack_ccc_retry kinesis_conn 19
              {| mem := linked_state; log := [] |} Hrange))))).
  - vm_compute. discriminate.
  - vm_compute. discriminate.
Defined.

(** ** GATT discovery *)

Lemma discover_func_service :
  forall stack conn a w,
    dp_type (discover_params (mem w)) = BT_GATT_DISCOVER_PRIMARY ->
    dp_uuid (discover_params (mem w)) = Some BT_UUID_HIDS_VAL ->
    discover_func stack conn (Some a) w =
    Some (BT_GATT_ITER_CONTINUE,
          {| mem := set_service_handle (handle a)
                      (set_service_found true (mem w));
             log := log w |}).
Proof.
  intros stack conn a w Ht Hu. unfold discover_func.
  rewrite Ht, Hu. reflexivity.
Qed.

Lemma discover_func_services_exhausted :
  forall stack conn w,
    dp_type (discover_params (mem w)) = BT_GATT_DISCOVER_PRIMARY ->
    service_found (mem w) = true ->
    discover_func stack conn None w =
    Some (BT_GATT_ITER_STOP,
          {| mem := set_discover_params
                      (characteristic_phase (service_handle (mem w)))
                      (set_service_found false (mem w));
             log := log w ++
                    [bt_gatt_discover conn
                       (characteristic_phase (service_handle (mem w)))] |}).
Proof.
  intros stack conn w Ht Hf. unfold discover_func.
  rewrite Ht, Hf. reflexivity.
Qed.

Lemma discover_func_nothing_found :
  forall stack conn w,
    service_found (mem w) = false ->
    discover_func stack conn None w =
    Some (BT_GATT_ITER_STOP,
          {| mem := set_discover_params discover_params_zero (mem w);
             log := log w |}).
Proof.
  intros stack conn w Hf. unfold discover_func.
  rewrite Hf, andb_false_r. reflexivity.
Qed.

Lemma discover_func_report :
  forall stack conn a w,
    dp_type (discover_params (mem w)) = BT_GATT_DISCOVER_CHARACTERISTIC ->
    dp_uuid (discover_params (mem w)) = Some BT_UUID_HIDS_REPORT_VAL ->
    discover_func stack conn (Some a) w =
    Some (BT_GATT_ITER_STOP,
          snd (subscribe_to_reports stack conn (attr_value_handle a)
                 {| mem := set_discover_params discover_params_zero (mem w);
                    log := log w |})).
Proof.
  intros stack conn a w Ht Hu. unfold discover_func.
  rewrite Ht, Hu. simpl. unfold bind, modify, ret. simpl.
  destruct (subscribe_to_reports _ _ _ _) as [[] w']. reflexivity.
Qed.

(** The service phase, however many services the host reports: the handle
    kept is that of the last one. *)
Lemma gatt_deliver_services :
  forall stack conn pre s w,
    dp_type (discover_params (mem w)) = BT_GATT_DISCOVER_PRIMARY ->
    dp_uuid (discover_params (mem w)) = Some BT_UUID_HIDS_VAL ->
    gatt_deliver stack conn (pre ++ [s]) w =
    Some {| mem := set_discover_params (characteristic_phase (handle s))
                     (set_service_handle (handle s)
                        (set_service_found false (mem w)));
            log := log w ++
                   [bt_gatt_discover conn (characteristic_phase (handle s))] |}.
Proof.
  intros stack conn pre s. induction pre as [|a pre IH]; intros w Ht Hu.
  - cbn [app gatt_deliver].
    rewrite discover_func_service by assumption.
    cbn [gatt_deliver Z.eqb BT_GATT_ITER_CONTINUE BT_GATT_ITER_STOP].
    rewrite discover_func_services_exhausted by (try exact Ht; reflexivity).
    reflexivity.
  - cbn [app gatt_deliver].
    rewrite discover_func_service by assumption.
    cbn [gatt_deliver Z.eqb BT_GATT_ITER_CONTINUE BT_GATT_ITER_STOP].
    rewrite IH by (try exact Ht; exact Hu). reflexivity.
Qed.

(** C5. Discovery runs in two phases.  In the service phase (the search
    UUID being the HID service's) every service the host reports is
    recorded, handle and all, and the callback answers CONTINUE; only the
    terminal NULL callback starts the characteristic phase, for the report
    characteristic UUID, from the recorded service handle to 0xffff, and
    with no service recorded it starts nothing.  In the characteristic
    phase the first characteristic reported stops the procedure, the ones
    after it are never looked at, and the first subscription request is for
    its value handle. *)
Theorem discovery_two_phase :
  forall stack conn w pre s c rest,
    dp_type (discover_params (mem w)) = BT_GATT_DISCOVER_PRIMARY ->
    dp_uuid (discover_params (mem w)) = Some BT_UUID_HIDS_VAL ->
    let w1 := {| mem := set_discover_params (characteristic_phase (handle s))
                          (set_service_handle (handle s)
                             (set_service_found false (mem w)));
                 log := log w ++
                        [bt_gatt_discover conn
                           (characteristic_phase (handle s))] |} in
    let w2 := {| mem := set_discover_params discover_params_zero (mem w1);
                 log := log w1 |} in
    (forall a,
       discover_func stack conn (Some a) w =
       Some (BT_GATT_ITER_CONTINUE,
             {| mem := set_service_handle (handle a)
                         (set_service_found true (mem w));
                log := log w |})) /\
    gatt_deliver stack conn (pre ++ [s]) w = Some w1 /\
    dp_start_handle (discover_params (mem w1)) = handle s /\
    dp_end_handle (discover_params (mem w1)) = 0xffff /\
    (service_found (mem w) = false ->
       gatt_deliver stack conn [] w =
       Some {| mem := set_discover_params discover_params_zero (mem w);
               log := log w |}) /\
    gatt_deliver stack conn (c :: rest) w1 =
      Some (snd (subscribe_to_reports stack conn (attr_value_handle c) w2)) /\
    (exists tail,
       log (snd (subscribe_to_reports stack conn (attr_value_handle c) w2)) =
       log w1 ++
       bt_gatt_subscribe conn (heuristic_params (attr_value_handle c)) :: tail).
Proof.
  intros stack conn w pre s c rest Ht Hu w1 w2.
  split; [|split; [|split; [|split; [|split; [|split]]]]].
  - intros a. apply discover_func_service; assumption.
  - apply gatt_deliver_services; assumption.
  - reflexivity.
  - reflexivity.
  - intros Hf. cbn [gatt_deliver].
    rewrite discover_func_nothing_found by assumption. reflexivity.
  - cbn [gatt_deliver].
    rewrite discover_func_report by reflexivity. reflexivity.
  - apply (subscribe_to_reports_first_call stack conn (attr_value_handle c) w2).
Qed.

(** The run of P7: services at handles 10, 13 and 15 (the HID service),
    the report characteristic declared at 18 with its value at 19. *)
Lemma discovery_session_kinesis :
  option_map (fun w => (log w, subscribe_params (mem w)))
    (discovery_session stack_ok kinesis_conn kinesis_table
       {| mem := ready_state; log := [] |}) =
  Some ([bt_conn_ref kinesis_conn;
         settings_save_one (Some kinesis_addr);
         bt_gatt_discover kinesis_conn service_phase;
         bt_gatt_discover kinesis_conn (characteristic_phase 15);
         bt_gatt_subscribe kinesis_conn (heuristic_params 19)],
        heuristic_params 19).
Proof.
  vm_compute. reflexivity.
Qed.

Lemma discovery_two_phase_witness :
  let w := snd (connected stack_ok kinesis_conn 0
                  {| mem := ready_state; log := [] |}) in
  let w1 := {| mem := set_discover_params (characteristic_phase 15)
                        (set_service_handle 15
                           (set_service_found false (mem w)));
               log := log w ++
                      [bt_gatt_discover kinesis_conn
                         (characteristic_phase 15)] |} in
  let w2 := {| mem := set_discover_params discover_params_zero (mem w1);
               log := log w1 |} in
  gatt_deliver stack_ok kinesis_conn
    ([] ++ [{| handle := 15; attr_value_handle := 0 |}]) w = Some w1 /\
  gatt_deliver stack_ok kinesis_conn
    [{| handle := 18; attr_value_handle := 19 |}] w1 =
    Some (snd (subscribe_to_reports stack_ok kinesis_conn 19 w2)).
Proof.
  pose proof (discovery_two_phase stack_ok kinesis_conn
                (snd (connected stack_ok kinesis_conn 0
                        {| mem := ready_state; log := [] |}))
                [] {| handle := 15; attr_value_handle := 0 |}
                {| handle := 18; attr_value_handle := 19 |} []
                eq_refl eq_refl) as H.
  cbv zeta in H. cbv zeta.
  split.
  - exact (proj1 (proj2 H)).
  - exact (proj1 (proj2 (proj2 (proj2 (proj2 (proj2 H)))))).
Defined.

(** ** Failure paths *)

Lemma link_attempts_app :
  forall l l', link_attempts (l ++ l') = (link_attempts l + link_attempts l')%nat.
Proof.
  intros l l'. unfold link_attempts. rewrite filter_app. apply length_app.
Qed.

Lemma main_loop_body_link_attempts :
  forall w,
    link_attempts (log (snd (main_loop_body w))) = link_attempts (log w).
Proof.
  intros w. unfold main_loop_body, bind, get, emit, ret. simpl.
  destruct (current_conn (mem w)); cbn [negb is_some snd log];
    rewrite !link_attempts_app; unfold link_attempts; simpl; lia.
Qed.

Lemma main_loop_link_attempts :
  forall turns w,
    link_attempts (log (snd (main_loop turns w))) = link_attempts (log w).
Proof.
  induction turns as [|n IH]; intros w.
  - reflexivity.
  - cbn [main_loop]. unfold bind.
    destruct (main_loop_body w) as [[] w'] eqn:Hbody.
    rewrite IH. change w' with (snd (tt, w')). rewrite <- Hbody.
    apply main_loop_body_link_attempts.
Qed.

(** C7, as the code has it.  When the connect asked for out of the scan
    callback fails, device_found sleeps one second and goes on as
    start_scan.  When the scan start itself fails, start_scan has made that
    one call and returns with the statics untouched; the main loop never
    asks for a scan or a connection, so nothing retries until another
    callback runs. *)
Theorem connect_failure_rescans_scan_failure_returns :
  forall stack data addr w,
    (bd_type data =? BT_DATA_NAME_COMPLETE) ||
    (bd_type data =? BT_DATA_NAME_SHORTENED) = true ->
    strstr (copy_name (bd_data data)) TARGET_DEVICE_NAME ||
    strstr (copy_name (bd_data data)) TARGET_DEVICE_NAME_ALT ||
    strstr (copy_name (bd_data data)) TARGET_DEVICE_NAME_ALT2 = true ->
    stack (log w ++ [bt_le_scan_stop]) = 0 ->
    stack (log w ++ [bt_le_scan_stop; k_sleep 100; bt_conn_le_create addr]) <> 0 ->
    device_found stack data addr w =
      (false,
       snd (start_scan stack
              {| mem := mem w;
                 log := log w ++ [bt_le_scan_stop; k_sleep 100;
                                  bt_conn_le_create addr; k_sleep 1000] |})) /\
    (forall w0,
       current_conn (mem w0) = None ->
       stack (log w0 ++ [bt_le_scan_start]) <> 0 ->
       start_scan stack w0 =
       (tt, {| mem := mem w0; log := log w0 ++ [bt_le_scan_start] |})) /\
    (forall turns w0,
       link_attempts (log (snd (main_loop turns w0))) = link_attempts (log w0)).
Proof.
  intros stack data addr w Hty Hname Hstop Hcreate.
  split; [|split].
  - unfold device_found. rewrite Hty, Hname.
    unfold bind, call, emit, ret. cbn [mem log].
    rewrite Hstop. rewrite zneq_false.
    cbn [mem log]. rewrite <- !app_assoc. cbn [app].
    rewrite (zneq_true _ _ Hcreate).
    cbn [mem log]. rewrite <- !app_assoc. cbn [app].
    destruct (start_scan stack _) as [[] w']. reflexivity.
  - intros w0 Hc _. apply start_scan_idle. exact Hc.
  - intros turns w0. apply main_loop_link_attempts.
Qed.

Lemma connect_failure_rescans_scan_failure_returns_witness :
  device_found stack_no_create adv_name kinesis_addr idle_world =
  (false,
   {| mem := ready_state;
      log := [bt_le_scan_stop; k_sleep 100; bt_conn_le_create kinesis_addr;
              k_sleep 1000; bt_le_scan_start] |}).
Proof.
  assert (Hcreate : stack_no_create
            (log idle_world ++
             [bt_le_scan_stop; k_sleep 100; bt_conn_le_create kinesis_addr]) <> 0)
    by (vm_compute; discriminate).
  exact (proj1 (connect_failure_rescans_scan_failure_returns stack_no_create
                  adv_name kinesis_addr idle_world eq_refl eq_refl eq_refl
                  Hcreate)).
Defined.

(** C7, as stated, fails: with a host that refuses every call, start_scan
    makes its one call and returns, and however long the main loop runs
    afterwards no second scan start and no connect is ever asked for. *)
Lemma scan_start_failure_is_not_retried :
  start_scan stack_eio idle_world =
    (tt, {| mem := ready_state; log := [bt_le_scan_start] |}) /\
  ~ (exists turns,
       (1 < link_attempts
              (log (snd (main_loop turns
                           (snd (start_scan stack_eio idle_world))))))%nat).
Proof.
  split.
  - reflexivity.
  - intros [turns H]. rewrite main_loop_link_attempts in H.
    vm_compute in H. lia.
Qed.

(** ** Button *)

Lemma button_pressed_run :
  forall now w,
    button_pressed now w =
    (tt, {| mem := set_button_press_time now
                     (set_button_double_press
                        (wrap64 (now - button_press_time (mem w)) <? 500)
                        (mem w));
            log := log w ++ [k_work_submit] |}).
Proof.
  intros now w. unfold button_pressed, bind, get, modify, emit.
  destruct (wrap64 (now - button_press_time (mem w)) <? 500); reflexivity.
Qed.

Lemma gap_no_wrap :
  forall prev now,
    0 <= prev <= now -> now < 2 ^ 64 -> wrap64 (now - prev) = now - prev.
Proof.
  intros prev now H1 H2. unfold wrap64. apply Z.mod_small. lia.
Qed.

(** The unpair path: what button_work_handler does when the flag is set. *)
Lemma button_work_handler_double :
  forall stack w,
    button_double_press (mem w) = true ->
    button_work_handler stack w =
    (tt, {| mem := set_button_double_press false
                     (set_keyboard_addr addr_zero
                        (set_keyboard_paired false
                           (set_current_conn None (mem w))));
            log := log w ++ dropped (mem w) ++
                   [settings_save_one None; k_sleep 100; bt_le_scan_start] |}).
Proof.
  intros stack [m l] Hflag. simpl in Hflag.
  unfold button_work_handler, dropped, start_scan.
  unfold bind, get, modify, emit, call, ret. cbn [mem log].
  rewrite Hflag.
  destruct m as [cc ? ? ? ? ? ? ? ? ? ? ?]. cbn in *. subst.
  destruct cc; cbn; rewrite <- ?app_assoc; cbn;
    match goal with |- context [if ?b then _ else _] => destruct b end;
    reflexivity.
Qed.

(** The single-press path. *)
Lemma button_work_handler_single :
  forall stack w,
    button_double_press (mem w) = false ->
    button_work_handler stack w =
    if negb (is_some (current_conn (mem w))) && keyboard_paired (mem w)
    then attempt_reconnect stack w
    else (tt, w).
Proof.
  intros stack w Hflag. unfold button_work_handler, bind, get. rewrite Hflag.
  destruct (negb _ && _); reflexivity.
Qed.

Lemma attempt_reconnect_log :
  forall stack w,
    exists tail,
      log (snd (attempt_reconnect stack w)) = log w ++ tail /\
      ~ In (settings_save_one None) tail.
Proof.
  intros stack w. destruct (current_conn (mem w)) eqn:Hc.
  - rewrite (attempt_reconnect_live stack w b Hc).
    exists []. rewrite app_nil_r. split; [reflexivity|intros []].
  - destruct (keyboard_paired (mem w)) eqn:Hp.
    + rewrite (attempt_reconnect_paired stack w Hc Hp). cbv zeta.
      match goal with |- context [if ?b then _ else _] => destruct b end.
      * rewrite start_scan_idle by exact Hc. cbn [snd log].
        rewrite <- app_assoc.
        eexists; split; [reflexivity|].
        cbn. intros [H|[H|[]]]; discriminate.
      * cbn [snd log]. rewrite <- app_assoc.
        eexists; split; [reflexivity|].
        cbn. intros [H|[H|[]]]; discriminate.
    + rewrite (attempt_reconnect_unpaired stack w Hc Hp).
      rewrite start_scan_idle by exact Hc. cbn [snd log].
      eexists; split; [reflexivity|].
      cbn. intros [H|[]]; discriminate.
Qed.

Lemma button_work_handler_press_time :
  forall stack w,
    button_press_time (mem (snd (button_work_handler stack w))) =
    button_press_time (mem w).
Proof.
  intros stack w. destruct (button_double_press (mem w)) eqn:Hflag.
  - rewrite button_work_handler_double by exact Hflag. reflexivity.
  - rewrite button_work_handler_single by exact Hflag.
    destruct (negb _ && _).
    + rewrite attempt_reconnect_mem. reflexivity.
    + reflexivity.
Qed.

(** C8. Two presses in a row, the clock not having run backwards: the
    later one sets the double-press flag exactly when it comes less than
    500 ms after the earlier one, and the recorded time becomes the later
    press's in either case (the work handler leaves it alone).  With the
    flag set the work handler takes the unpair path: no handle, pairing
    flag false, stored address zeroed, the settings entry cleared.  Without
    it the statics keep their values and the settings entry is not cleared.
    Three presses 200 ms apart: the second and the third both set the
    flag. *)
Theorem double_press_threshold :
  forall stack now w,
    0 <= button_press_time (mem w) <= now ->
    now < 2 ^ 64 ->
    let gap := now - button_press_time (mem w) in
    let w1 := snd (button_pressed now w) in
    let w2 := snd (button_work_handler stack w1) in
    (button_double_press (mem w1) = true <-> gap < 500) /\
    button_press_time (mem w1) = now /\
    button_press_time (mem w2) = now /\
    (gap < 500 ->
       current_conn (mem w2) = None /\
       keyboard_paired (mem w2) = false /\
       keyboard_addr (mem w2) = addr_zero /\
       (exists tail,
          log w2 = log w1 ++ tail /\ In (settings_save_one None) tail)) /\
    (500 <= gap ->
       mem w2 = mem w1 /\
       keyboard_paired (mem w2) = keyboard_paired (mem w) /\
       keyboard_addr (mem w2) = keyboard_addr (mem w) /\
       (exists tail,
          log w2 = log w1 ++ tail /\ ~ In (settings_save_one None) tail)) /\
    (now + 400 < 2 ^ 64 ->
       let second := snd (button_pressed (now + 200) w2) in
       let third :=
         snd (button_pressed (now + 400)
                (snd (button_work_handler stack second))) in
       button_double_press (mem second) = true /\
       button_double_press (mem third) = true).
Proof.
  intros stack now w Hprev Hnow gap w1 w2.
  assert (Hflag : button_double_press (mem w1) = (gap <? 500)).
  { subst w1. rewrite button_pressed_run. cbn.
    rewrite gap_no_wrap by assumption. reflexivity. }
  assert (Ht1 : button_press_time (mem w1) = now).
  { subst w1. rewrite button_pressed_run. reflexivity. }
  assert (Ht2 : button_press_time (mem w2) = now).
  { subst w2. rewrite button_work_handler_press_time. exact Ht1. }
  split; [|split; [|split; [|split; [|split]]]].
  - rewrite Hflag. apply Z.ltb_lt.
  - exact Ht1.
  - exact Ht2.
  - intros Hgap. apply Z.ltb_lt in Hgap. rewrite Hgap in Hflag.
    subst w2. rewrite (button_work_handler_double stack w1 Hflag). cbn.
    repeat split.
    eexists; split; [reflexivity|].
    apply in_or_app. right. left. reflexivity.
  - intros Hgap. apply Z.ltb_ge in Hgap. rewrite Hgap in Hflag.
    assert (Hmem : mem w2 = mem w1).
    { subst w2. rewrite (button_work_handler_single stack w1 Hflag).
      destruct (negb _ && _).
      - apply attempt_reconnect_mem.
      - reflexivity. }
    split; [exact Hmem|]. rewrite Hmem.
    split; [subst w1; rewrite button_pressed_run; reflexivity|].
    split; [subst w1; rewrite button_pressed_run; reflexivity|].
    subst w2. rewrite (button_work_handler_single stack w1 Hflag).
    destruct (negb _ && _).
    + apply attempt_reconnect_log.
    + exists []. cbn. rewrite app_nil_r. split; [reflexivity|intros []].
  - intros Hlate second third.
    assert (Hs : button_double_press (mem second) = true).
    { subst second. rewrite button_pressed_run. cbn.
      rewrite Ht2. rewrite gap_no_wrap by lia.
      apply Z.ltb_lt. lia. }
    split; [exact Hs|].
    assert (Ht3 : button_press_time
                    (mem (snd (button_work_handler stack second))) = now + 200).
    { rewrite button_work_handler_press_time.
      subst second. rewrite button_pressed_run. reflexivity. }
    subst third. rewrite button_pressed_run.
    cbn [snd mem button_double_press set_button_press_time
         set_button_double_press].
    rewrite Ht3. rewrite gap_no_wrap by lia.
    apply Z.ltb_lt. lia.
Qed.

(** Presses 499 ms and 501 ms apart, on a paired bridge. *)
Lemma double_press_threshold_witness :
  let w := {| mem := set_button_press_time 1000 paired_state; log := [] |} in
  let w1 := snd (button_pressed 1499 w) in
  let w2 := snd (button_work_handler stack_ok w1) in
  (button_double_press (mem w1) = true <-> 1499 - 1000 < 500) /\
  keyboard_paired (mem w2) = false /\
  keyboard_addr (mem w2) = addr_zero.
Proof.
  assert (Hprev : 0 <= 1000 <= 1499) by lia.
  assert (Hnow : 1499 < 2 ^ 64) by lia.
  assert (Hgap : 1499 - 1000 < 500) by lia.
  pose proof (double_press_threshold stack_ok 1499
                {| mem := set_button_press_time 1000 paired_state; log := [] |}
                Hprev Hnow) as H.
  cbv zeta in H. cbv zeta.
  split.
  - exact (proj1 H).
  - split.
    + exact (proj1 (proj2 (proj1 (proj2 (proj2 (proj2 H))) Hgap))).
    + exact (proj1 (proj2 (proj2 (proj1 (proj2 (proj2 (proj2 H))) Hgap)))).
Defined.

Lemma press_501ms_is_single :
  let w := {| mem := set_button_press_time 1000 paired_state; log := [] |} in
  let w1 := snd (button_pressed 1501 w) in
  button_double_press (mem w1) = false /\
  mem (snd (button_work_handler stack_ok w1)) = mem w1.
Proof.
  vm_compute. split; reflexivity.
Qed.

(** C9, as the code has it.  A single press (500 ms or more after the
    previous one) with no live handle: when the bridge is paired the work
    handler is attempt_reconnect; when it is not paired the work handler
    does nothing. *)
Theorem single_press_reconnects_when_paired :
  forall stack now w,
    0 <= button_press_time (mem w) <= now ->
    now < 2 ^ 64 ->
    500 <= now - button_press_time (mem w) ->
    current_conn (mem w) = None ->
    let w1 := snd (button_pressed now w) in
    button_double_press (mem w1) = false /\
    (keyboard_paired (mem w) = true ->
       button_work_handler stack w1 = attempt_reconnect stack w1) /\
    (keyboard_paired (mem w) = false ->
       button_work_handler stack w1 = (tt, w1)).
Proof.
  intros stack now w Hprev Hnow Hgap Hc w1.
  assert (Hflag : button_double_press (mem w1) = false).
  { subst w1. rewrite button_pressed_run. cbn.
    rewrite gap_no_wrap by assumption. apply Z.ltb_ge. exact Hgap. }
  assert (Hc1 : current_conn (mem w1) = None).
  { subst w1. rewrite button_pressed_run. exact Hc. }
  assert (Hp1 : keyboard_paired (mem w1) = keyboard_paired (mem w)).
  { subst w1. rewrite button_pressed_run. reflexivity. }
  split; [exact Hflag|].
  split; intros Hp;
    rewrite (button_work_handler_single stack w1 Hflag), Hc1, Hp1, Hp;
    reflexivity.
Qed.

Lemma single_press_reconnects_when_paired_witness :
  let w1 := snd (button_pressed 5000
                   {| mem := paired_state; log := [] |}) in
  button_work_handler stack_ok w1 = attempt_reconnect stack_ok w1.
Proof.
  assert (Hprev : 0 <= 0 <= 5000) by lia.
  assert (Hnow : 5000 < 2 ^ 64) by lia.
  assert (Hgap : 500 <= 5000 - 0) by lia.
  exact (proj1 (proj2 (single_press_reconnects_when_paired stack_ok 5000
                         {| mem := paired_state; log := [] |}
                         Hprev Hnow Hgap eq_refl)) eq_refl).
Defined.

(** C9, as stated, fails: a single press on a bridge that has no live
    handle and no pairing leaves the work handler with nothing to do,
    where attempt_reconnect would have started a scan. *)
Lemma single_press_unpaired_does_nothing :
  let w1 := snd (button_pressed 5000 idle_world) in
  500 <= 5000 - button_press_time (mem idle_world) /\
  button_double_press (mem w1) = false /\
  current_conn (mem w1) = None /\
  log (snd (button_work_handler stack_ok w1)) = [k_work_submit] /\
  log (snd (attempt_reconnect stack_ok w1)) = [k_work_submit; bt_le_scan_start] /\
  button_work_handler stack_ok w1 <> attempt_reconnect stack_ok w1.
Proof.
  cbv zeta. repeat split; try reflexivity.
  - vm_compute. discriminate.
  - vm_compute. discriminate.
Qed.

(** ** Unpair *)

Lemma pairing_store_cleared :
  forall init l l',
    pairing_store init (l ++ l' ++ [settings_save_one None; k_sleep 100;
                                    bt_le_scan_start]) = None.
Proof.
  intros init l l'. unfold pairing_store.
  rewrite !fold_left_app. reflexivity.
Qed.

(** C10. The unpair path from any state with the flag set: afterwards
    there is no live handle, the pairing flag is false, the stored address
    is zeroed, the settings entry is cleared and, 100 ms later, a scan start
    has been asked for.  Taking the path again (the flag set by another
    quick press) ends in the same statics and the same cleared settings
    entry, and asks once more for the clearing and the scan; the work
    handler run again as it is (the flag reset) does nothing at all. *)
Theorem unpair_idempotent :
  forall stack init w,
    button_double_press (mem w) = true ->
    let w1 := snd (button_work_handler stack w) in
    let rearmed := {| mem := set_button_double_press true (mem w1);
                      log := log w1 |} in
    let w2 := snd (button_work_handler stack rearmed) in
    current_conn (mem w1) = None /\
    keyboard_paired (mem w1) = false /\
    keyboard_addr (mem w1) = addr_zero /\
    button_double_press (mem w1) = false /\
    log w1 = log w ++ dropped (mem w) ++
             [settings_save_one None; k_sleep 100; bt_le_scan_start] /\
    pairing_store init (log w1) = None /\
    mem w2 = mem w1 /\
    log w2 = log w1 ++
             [settings_save_one None; k_sleep 100; bt_le_scan_start] /\
    pairing_store init (log w2) = None /\
    button_work_handler stack w1 = (tt, w1).
Proof.
  intros stack init w Hflag w1 rearmed w2.
  assert (H1 : w1 = {| mem := set_button_double_press false
                              (set_keyboard_addr addr_zero
                                 (set_keyboard_paired false
                                    (set_current_conn None (mem w))));
                       log := log w ++ dropped (mem w) ++
                              [settings_save_one None; k_sleep 100;
                               bt_le_scan_start] |}).
  { subst w1. rewrite (button_work_handler_double stack w Hflag). reflexivity. }
  assert (H2 : w2 = {| mem := mem w1;
                       log := log w1 ++
                              [settings_save_one None; k_sleep 100;
                               bt_le_scan_start] |}).
  { subst w2. rewrite (button_work_handler_double stack rearmed eq_refl).
    subst rearmed. rewrite H1. reflexivity. }
  split; [rewrite H1; reflexivity|].
  split; [rewrite H1; reflexivity|].
  split; [rewrite H1; reflexivity|].
  split; [rewrite H1; reflexivity|].
  split; [rewrite H1; reflexivity|].
  split.
  { rewrite H1. cbn [log]. apply pairing_store_cleared. }
  split; [rewrite H2; reflexivity|].
  split; [rewrite H2; reflexivity|].
  split.
  { rewrite H2. cbn [log].
    change (log w1 ++ [settings_save_one None; k_sleep 100; bt_le_scan_start])
      with (log w1 ++ [] ++ [settings_save_one None; k_sleep 100;
                             bt_le_scan_start]).
    apply pairing_store_cleared. }
  rewrite button_work_handler_single by (rewrite H1; reflexivity).
  rewrite H1. reflexivity.
Qed.

Lemma unpair_idempotent_witness :
  let w := {| mem := set_button_double_press true linked_state; log := [] |} in
  let w1 := snd (button_work_handler stack_ok w) in
  let rearmed := {| mem := set_button_double_press true (mem w1);
                    log := log w1 |} in
  mem (snd (button_work_handler stack_ok rearmed)) = mem w1 /\
  log w1 = [bt_conn_disconnect kinesis_conn BT_HCI_ERR_REMOTE_USER_TERM_CONN;
            bt_conn_unref kinesis_conn;
            settings_save_one None; k_sleep 100; bt_le_scan_start].
Proof.
  pose proof (unpair_idempotent stack_ok (Some kinesis_addr)
                {| mem := set_button_double_press true linked_state; log := [] |}
                eq_refl) as H.
  cbv zeta in H. cbv zeta.
  split.
  - exact (proj1 (proj2 (proj2 (proj2 (proj2 (proj2 (proj2 H))))))).
  - exact (proj1 (proj2 (proj2 (proj2 (proj2 H))))).
Defined.

(** ** Further properties of the callbacks *)

(** A notification without payload: the stored value handle is
    cleared, nothing is written to the sink, and the callback answers
    BT_GATT_ITER_STOP. *)
Lemma notify_func_unsubscribed :
  forall stack conn length w,
    notify_func stack conn None length w =
    (BT_GATT_ITER_STOP,
     {| mem := set_subscribe_params
                 {| sp_notify := sp_notify (subscribe_params (mem w));
                    sp_value_handle := 0;
                    sp_ccc_handle := sp_ccc_handle (subscribe_params (mem w));
                    sp_end_handle := sp_end_handle (subscribe_params (mem w));
                    sp_value := sp_value (subscribe_params (mem w)) |} (mem w);
        log := log w |}).
Proof.
  intros stack conn length w. reflexivity.
Qed.

(** X1. A failed connection: a stale handle is released, the handler
    sleeps one second and goes on as attempt_reconnect when paired and as
    start_scan otherwise. *)
Theorem connected_error_retries :
  forall stack conn err w,
    err <> 0 ->
    let w' := {| mem := set_current_conn None (mem w);
                 log := log w ++ released (mem w) ++ [k_sleep 1000] |} in
    connected stack conn err w =
    if keyboard_paired (mem w)
    then attempt_reconnect stack w'
    else start_scan stack w'.
Proof.
  intros stack conn err [m l] Herr. cbv zeta.
  unfold connected. rewrite (zneq_true _ _ Herr).
  unfold released, bind, get, modify, emit, ret. simpl.
  destruct m as [cc ? ? ? paired ? ? ? ? ? ? ?]. simpl.
  destruct cc; simpl; rewrite <- ?app_assoc; destruct paired; reflexivity.
Qed.

Lemma connected_error_retries_witness :
  connected stack_ok kinesis_conn 62 {| mem := paired_state; log := [] |} =
  attempt_reconnect stack_ok {| mem := paired_state; log := [k_sleep 1000] |}.
Proof.
  assert (Herr : 62 <> 0) by lia.
  exact (connected_error_retries stack_ok kinesis_conn 62
           {| mem := paired_state; log := [] |} Herr).
Defined.

(** A successful connection: the handle is stored, the peer address
    becomes the pairing record and is saved, and the service phase is asked
    for over the whole handle range. *)
Lemma connected_success_starts_discovery :
  forall stack conn w,
    connected stack conn 0 w =
    (tt,
     {| mem := set_discover_params service_phase
                 (set_keyboard_paired true
                    (set_keyboard_addr (conn_dst conn)
                       (set_current_conn (Some conn) (mem w))));
        log := log w ++
               [bt_conn_ref conn;
                settings_save_one (Some (conn_dst conn));
                bt_gatt_discover conn service_phase] |}).
Proof.
  intros stack conn w. unfold connected.
  unfold bind, get, modify, emit, call, ret. cbn.
  rewrite <- !app_assoc. cbn.
  match goal with |- context [if ?b then _ else _] => destruct b end;
    reflexivity.
Qed.

(** One turn of the main loop sleeps a second and toggles the LED
    exactly when no handle is live; the statics are left alone. *)
Lemma main_loop_body_indicator :
  forall w,
    main_loop_body w =
    (tt,
     {| mem := mem w;
        log := log w ++
               k_sleep 1000 ::
               (if is_some (current_conn (mem w))
                then []
                else [gpio_pin_toggle_dt]) |}).
Proof.
  intros w. unfold main_loop_body, bind, get, emit, ret. cbn.
  destruct (current_conn (mem w)); cbn.
  - reflexivity.
  - rewrite <- app_assoc. reflexivity.
Qed.

Lemma is_prefix_app_l :
  forall p q l, is_prefix (p ++ q) l = true -> is_prefix p l = true.
Proof.
  induction p as [|x p IH]; intros q l H.
  - reflexivity.
  - destruct l as [|y l]; [discriminate|].
    cbn in *. apply andb_true_iff in H. destruct H as [Hxy Hrest].
    rewrite Hxy. exact (IH q l Hrest).
Qed.

Lemma strstr_app_l :
  forall h p q, strstr h (p ++ q) = true -> strstr h p = true.
Proof.
  induction h as [|y h IH]; intros p q H.
  - cbn in *. rewrite orb_false_r in *. exact (is_prefix_app_l p q [] H).
  - cbn [strstr] in *. apply orb_true_iff in H. apply orb_true_iff.
    destruct H as [H|H].
    + left. exact (is_prefix_app_l p q _ H).
    + right. exact (IH p q H).
Qed.

(** The three name tests of device_found amount to the first: a name
    that holds one of the two longer variants holds "Adv360 Pro". *)
Lemma device_name_match :
  forall name,
    strstr name TARGET_DEVICE_NAME ||
    strstr name TARGET_DEVICE_NAME_ALT ||
    strstr name TARGET_DEVICE_NAME_ALT2 =
    strstr name TARGET_DEVICE_NAME.
Proof.
  intros name.
  destruct (strstr name TARGET_DEVICE_NAME) eqn:H1; [reflexivity|].
  destruct (strstr name TARGET_DEVICE_NAME_ALT) eqn:H2.
  - change TARGET_DEVICE_NAME_ALT
      with (TARGET_DEVICE_NAME ++ list_byte_of_string " R") in H2.
    apply strstr_app_l in H2. congruence.
  - destruct (strstr name TARGET_DEVICE_NAME_ALT2) eqn:H3; [|reflexivity].
    change TARGET_DEVICE_NAME_ALT2
      with (TARGET_DEVICE_NAME ++ list_byte_of_string " L") in H3.
    apply strstr_app_l in H3. congruence.
Qed.

(** ** Settings *)

Lemma addr_round_trip :
  forall a object,
    List.length (addr_a a) = 6%nat ->
    addr_of_bytes (read_into object 7 (addr_bytes a)) = a.
Proof.
  intros [t bs] object Hlen. cbn in Hlen.
  unfold read_into, addr_bytes, addr_of_bytes. cbn [addr_type addr_a].
  rewrite firstn_all2 by (cbn; lia).
  cbn [app hd tl]. rewrite firstn_app, firstn_all2 by lia.
  replace (6 - List.length bs)%nat with 0%nat by lia.
  cbn. rewrite app_nil_r. reflexivity.
Qed.

(** X2. What connected() saves, settings_set restores: given the seven
    bytes of an address (type byte and six address bytes) under the key
    "addr", the handler answers 0, stores that very address and marks the
    bridge paired, whatever the statics held before. *)
Theorem settings_set_restores_saved_address :
  forall a w,
    List.length (addr_a a) = 6%nat ->
    settings_set "addr" (Z.of_nat (List.length (addr_bytes a))) (addr_bytes a) w =
    (0, {| mem := set_keyboard_paired true (set_keyboard_addr a (mem w));
           log := log w |}).
Proof.
  intros a w Hlen. unfold settings_set.
  replace (Z.of_nat (List.length (addr_bytes a))) with 7
    by (unfold addr_bytes; cbn [List.length]; lia).
  cbn [String.eqb Ascii.eqb Bool.eqb andb zneq Z.eqb Pos.eqb negb].
  unfold bind, modify, ret. cbn [mem log].
  rewrite (addr_round_trip a _ Hlen). reflexivity.
Qed.

Lemma settings_set_restores_saved_address_witness :
  settings_set "addr" 7 (addr_bytes kinesis_addr) boot_world =
  (0, {| mem := set_keyboard_paired true
                  (set_keyboard_addr kinesis_addr boot_state);
         log := [] |}).
Proof.
  exact (settings_set_restores_saved_address kinesis_addr boot_world eq_refl).
Defined.

(** X3. A stored entry that is not seven bytes long is refused with
    -EINVAL, and a key other than "addr" is answered 0; in both cases the
    statics stay as they were, so the bridge stays unpaired if it was. *)
Theorem settings_set_refuses_malformed :
  forall name len stored w,
    (name = "addr"%string -> len <> 7 ->
       settings_set name len stored w = (- EINVAL, w)) /\
    (name <> "addr"%string ->
       settings_set name len stored w = (0, w)) /\
    (List.length stored <> 7%nat ->
       settings_load (Some stored) w = (tt, w)) /\
    settings_load None w = (tt, w).
Proof.
  intros name len stored w. split; [|split; [|split]].
  - intros -> Hlen. unfold settings_set.
    rewrite String.eqb_refl, (zneq_true _ _ Hlen). reflexivity.
  - intros Hname. unfold settings_set.
    apply String.eqb_neq in Hname. rewrite Hname. reflexivity.
  - intros Hlen. unfold settings_load, settings_set, bind.
    rewrite String.eqb_refl, zneq_true by lia. reflexivity.
  - reflexivity.
Qed.

(** ** Device name matching *)

Lemma is_prefix_spec :
  forall p l, is_prefix p l = true <-> exists post, l = p ++ post.
Proof.
  induction p as [|x p IH]; intros l.
  - split; [intros _; exists l; reflexivity|reflexivity].
  - destruct l as [|y l].
    + split; [discriminate|intros [post H]; discriminate].
    + cbn [is_prefix]. rewrite andb_true_iff, IH. split.
      * intros [Hxy [post ->]]. apply byte_dec_bl in Hxy. subst y.
        exists post. reflexivity.
      * intros [post H]. injection H as -> ->.
        split; [apply byte_dec_lb; reflexivity|exists post; reflexivity].
Qed.

Lemma strstr_spec :
  forall h n, strstr h n = true <-> exists pre post, h = pre ++ n ++ post.
Proof.
  induction h as [|y h IH]; intros n.
  - cbn [strstr]. rewrite orb_false_r, is_prefix_spec. split.
    + intros [post H]. exists [], post. exact H.
    + intros [pre [post H]]. destruct pre; [|discriminate].
      exists post. exact H.
  - cbn [strstr]. rewrite orb_true_iff, is_prefix_spec, IH. split.
    + intros [[post H]|[pre [post H]]].
      * exists [], post. exact H.
      * exists (y :: pre), post. rewrite H. reflexivity.
    + intros [pre [post H]]. destruct pre as [|z pre].
      * left. exists post. exact H.
      * right. injection H as _ H. exists pre, post. exact H.
Qed.

Lemma c_str_prefix :
  forall buf, exists rest, buf = c_str buf ++ rest.
Proof.
  induction buf as [|b buf [rest IH]].
  - exists []. reflexivity.
  - cbn [c_str]. destruct (Byte.eqb b x00).
    + exists (b :: buf). reflexivity.
    + exists rest. cbn. rewrite <- IH. reflexivity.
Qed.

Lemma c_str_no_nul :
  forall buf, ~ In x00 (c_str buf).
Proof.
  induction buf as [|b buf IH]; [intros []|].
  cbn [c_str]. destruct (Byte.eqb b x00) eqn:Hb; [intros []|].
  intros [H|H]; [|exact (IH H)].
  subst b. discriminate.
Qed.

Lemma c_str_length :
  forall buf, (List.length (c_str buf) <= List.length buf)%nat.
Proof.
  induction buf as [|b buf IH]; [apply Nat.le_refl|].
  cbn [c_str]. destruct (Byte.eqb b x00); cbn; lia.
Qed.

Lemma copy_name_shape :
  forall data,
    (List.length (copy_name data) <= 29)%nat /\
    ~ In x00 (copy_name data) /\
    exists rest, data = copy_name data ++ rest.
Proof.
  intros data. unfold copy_name. split; [|split].
  - eapply Nat.le_trans; [apply c_str_length|].
    rewrite length_firstn. lia.
  - apply c_str_no_nul.
  - destruct (c_str_prefix (firstn (Nat.min (List.length data) 29) data))
      as [rest Hrest].
    exists (rest ++ skipn (Nat.min (List.length data) 29) data).
    rewrite app_assoc, <- Hrest. symmetry. apply firstn_skipn.
Qed.

(** X4. device_found acts on an advertising element exactly when it is a
    complete or shortened name whose tested part holds "Adv360 Pro" as a
    run of consecutive bytes; then its first call is bt_le_scan_stop, and
    otherwise it asks nothing and lets parsing go on.  The tested part is
    the start of the advertised name: at most 29 bytes, cut before the
    first NUL. *)
Theorem device_found_matches_substring :
  forall stack d addr w,
    let named := (bd_type d =? BT_DATA_NAME_COMPLETE) ||
                 (bd_type d =? BT_DATA_NAME_SHORTENED) in
    let held := exists pre post,
                  copy_name (bd_data d) = pre ++ TARGET_DEVICE_NAME ++ post in
    (named = true /\ held ->
       exists tail,
         log (snd (device_found stack d addr w)) =
         log w ++ bt_le_scan_stop :: tail) /\
    (named = false \/ ~ held -> device_found stack d addr w = (true, w)) /\
    (List.length (copy_name (bd_data d)) <= 29)%nat /\
    ~ In x00 (copy_name (bd_data d)) /\
    (exists rest, bd_data d = copy_name (bd_data d) ++ rest).
Proof.
  intros stack d addr w named held.
  split; [|split; [|apply copy_name_shape]].
  - intros [Hnamed Hheld]. unfold device_found. fold named. rewrite Hnamed.
    rewrite device_name_match.
    apply strstr_spec in Hheld. rewrite Hheld.
    unfold bind, call, emit, ret. cbn [mem log].
    destruct (zneq (stack (log w ++ [bt_le_scan_stop])) 0).
    + exists []. reflexivity.
    + cbn [mem log].
      match goal with |- context [if ?b then _ else _] => destruct b end.
      * destruct (start_scan stack _) as [[] w'] eqn:Hscan. cbn [snd log].
        pose proof (f_equal (fun p => log (snd p)) Hscan) as Hlog.
        cbn [snd] in Hlog.
        destruct (current_conn (mem w)) eqn:Hc.
        -- erewrite start_scan_live in Hlog by exact Hc.
           cbn [snd log] in Hlog. rewrite <- Hlog.
           rewrite <- !app_assoc. eexists. reflexivity.
        -- rewrite start_scan_idle in Hlog by exact Hc.
           cbn [snd log] in Hlog. rewrite <- Hlog.
           rewrite <- !app_assoc. eexists. reflexivity.
      * cbn [snd log]. rewrite <- !app_assoc. eexists. reflexivity.
  - intros Hno. unfold device_found. fold named.
    destruct named; [|reflexivity].
    rewrite device_name_match.
    destruct (strstr (copy_name (bd_data d)) TARGET_DEVICE_NAME) eqn:Hs;
      [|reflexivity].
    apply strstr_spec in Hs. destruct Hno as [Hno|Hno];
      [discriminate|contradiction].
Qed.

(** A name of 41 bytes that ends in "Adv360 Pro": the target lies past the
    29 bytes that are looked at, and the element is passed over. *)
Lemma device_found_long_name_missed :
  device_found stack_ok long_adv_name kinesis_addr idle_world =
  (true, idle_world).
Proof.
  vm_compute. reflexivity.
Qed.

(** ** One advertisement report *)

Ltac fw_unfold :=
  repeat progress
    unfold usb_hid_status_cb, notify_func, subscribe_to_reports, start_scan,
      attempt_reconnect, connected, disconnected, device_found,
      button_work_handler, button_pressed, main_loop_body,
      bind, ret, get, modify, emit, call, when.

Ltac state_simpl :=
  cbn [fst snd mem log
       current_conn subscribe_params discover_params keyboard_addr
       keyboard_paired hid_report usb_configured hid_dev button_press_time
       button_double_press service_found service_handle
       set_current_conn set_subscribe_params set_discover_params
       set_keyboard_addr set_keyboard_paired set_hid_report
       set_usb_configured set_hid_dev set_button_press_time
       set_button_double_press set_service_found set_service_handle
       is_some negb andb orb] in *.

Ltac fw_cases :=
  repeat (cbn [fst snd mem log];
          match goal with
          | |- context [if ?b then _ else _] => destruct b eqn:?
          | |- context [match ?x with Some _ => _ | None => _ end] =>
              destruct x eqn:?
          end).

Lemma connect_requests_snoc :
  forall l e,
    connect_requests (l ++ [e]) =
    (connect_requests l + if is_connect_request e then 1 else 0)%nat.
Proof.
  intros l e. unfold connect_requests. rewrite filter_app, length_app.
  cbn [filter]. destruct (is_connect_request e); reflexivity.
Qed.

Lemma device_found_footprint :
  forall stack d addr w,
    mem (snd (device_found stack d addr w)) = mem w /\
    (fst (device_found stack d addr w) = true ->
       connect_requests (log (snd (device_found stack d addr w))) =
       connect_requests (log w)) /\
    (connect_requests (log (snd (device_found stack d addr w))) <=
     connect_requests (log w) + 1)%nat.
Proof.
  intros stack d addr w. fw_unfold. fw_cases; cbn [fst snd mem log];
    rewrite ?connect_requests_snoc; cbn [is_connect_request];
    repeat split; intros; try discriminate; lia.
Qed.

Lemma bt_data_parse_preserves :
  forall stack (P : World -> Prop),
    (forall d addr w, P w -> P (snd (device_found stack d addr w))) ->
    forall ad addr w, P w -> P (snd (bt_data_parse stack ad addr w)).
Proof.
  intros stack P Hstep ad addr. induction ad as [|d ad IH]; intros w Hw.
  - exact Hw.
  - cbn [bt_data_parse]. unfold bind.
    pose proof (Hstep d addr w Hw) as Hd.
    destruct (device_found stack d addr w) as [[] w1]; cbn [snd] in *.
    + apply IH. exact Hd.
    + exact Hd.
Qed.

(** X5. One advertisement report, whatever elements it carries: scan_cb
    leaves the statics alone and asks for at most one connection; a report
    without a name element asks for nothing at all. *)
Theorem scan_cb_at_most_one_connect :
  forall stack addr ad w,
    mem (snd (scan_cb stack addr ad w)) = mem w /\
    (connect_requests (log (snd (scan_cb stack addr ad w))) <=
     connect_requests (log w) + 1)%nat /\
    (Forall (fun d => bd_type d <> BT_DATA_NAME_COMPLETE /\
                      bd_type d <> BT_DATA_NAME_SHORTENED) ad ->
     scan_cb stack addr ad w = (tt, w)).
Proof.
  intros stack addr ad w. unfold scan_cb. split; [|split].
  - apply (bt_data_parse_preserves stack (fun w' => mem w' = mem w));
      [|reflexivity].
    intros d a w0 H0.
    rewrite (proj1 (device_found_footprint stack d a w0)). exact H0.
  - revert w. induction ad as [|d ad IH]; intros w.
    + cbn. lia.
    + cbn [bt_data_parse]. unfold bind.
      pose proof (device_found_footprint stack d addr w) as [_ [Hgo Hle]].
      destruct (device_found stack d addr w) as [[] w1]; cbn [fst snd] in *.
      * rewrite <- (Hgo eq_refl). apply IH.
      * exact Hle.
  - intros Hall. revert w. induction Hall as [|d ad [Hc Hs] _ IH]; intros w.
    + reflexivity.
    + cbn [bt_data_parse]. unfold bind, device_found.
      apply Z.eqb_neq in Hc, Hs. rewrite Hc, Hs. cbn [orb ret].
      apply IH.
Qed.

(** ** Invariants of the callbacks *)

Lemma run_callbacks_preserve :
  forall stack (P : World -> Prop),
    (forall c w w', P w -> run_callback stack c w = Some w' -> P w') ->
    forall cs w w', P w -> run_callbacks stack cs w = Some w' -> P w'.
Proof.
  intros stack P Hstep cs. induction cs as [|c cs IH]; intros w w' Hw Hrun.
  - injection Hrun as <-. exact Hw.
  - cbn [run_callbacks] in Hrun.
    destruct (run_callback stack c w) as [w1|] eqn:Hc; [|discriminate].
    exact (IH w1 w' (Hstep c w w1 Hw Hc) Hrun).
Qed.

Ltac forall_snoc :=
  repeat (apply Forall_app; split); try assumption;
  try (constructor; [cbn [sink_write_ok]; auto|constructor]).

Lemma firstn_8_length :
  forall d : list byte,
    (8 <=? Z.of_nat (List.length d)) = true ->
    List.length (firstn 8 d) = 8%nat.
Proof.
  intros d H. apply Z.leb_le in H. rewrite length_firstn. lia.
Qed.

Lemma discover_func_report_sized :
  forall stack conn attr w r w',
    report_sized w ->
    discover_func stack conn attr w = Some (r, w') ->
    report_sized w'.
Proof.
  intros stack conn attr w r w' [Hlen Hlog] Hrun. revert Hrun.
  unfold discover_func. fw_unfold.
  destruct attr; fw_cases;
    repeat match goal with
           | |- context [match ?x with BT_GATT_DISCOVER_PRIMARY => _ | _ => _ end] =>
               destruct x eqn:?
           end;
    fw_cases; intros Hrun; try discriminate;
    injection Hrun as _ <-; split; state_simpl; try assumption; forall_snoc.
Qed.

Lemma run_callback_report_sized :
  forall stack c w w',
    report_sized w -> run_callback stack c w = Some w' -> report_sized w'.
Proof.
  intros stack c w w' Hw Hrun. destruct c; cbn [run_callback] in Hrun.
  6:{ injection Hrun as <-. unfold scan_cb.
      apply (bt_data_parse_preserves stack report_sized); [|exact Hw].
      intros d a w0 [Hlen Hlog]. split.
      - rewrite (proj1 (device_found_footprint stack d a w0)). exact Hlen.
      - fw_unfold. fw_cases; cbn [snd log]; forall_snoc. }
  3:{ destruct (discover_func stack conn attr w) as [[r w1]|] eqn:Hd;
        [|discriminate].
      injection Hrun as <-.
      exact (discover_func_report_sized stack conn attr w r w1 Hw Hd). }
  all: injection Hrun as <-; destruct Hw as [Hlen Hlog];
    fw_unfold; try destruct status; try destruct data;
    fw_cases; split; state_simpl; try assumption; forall_snoc;
    auto using firstn_8_length.
Qed.

(** X6. Along any run of callbacks that starts with an 8-byte report
    buffer (notifications carrying their payload's byte count as length),
    the buffer keeps its 8 bytes and every report written to the sink has
    8 bytes. *)
Theorem report_buffer_stays_eight_bytes :
  forall stack cs w w',
    report_sized w ->
    run_callbacks stack cs w = Some w' ->
    report_sized w'.
Proof.
  intros stack cs w w' Hw Hrun.
  apply (run_callbacks_preserve stack report_sized
           (run_callback_report_sized stack) cs w w' Hw Hrun).
Qed.

Lemma sink_writes_snoc :
  forall l e,
    sink_writes (l ++ [e]) =
    sink_writes l ++ (if is_sink_write e then [e] else []).
Proof.
  intros l e. unfold sink_writes. rewrite filter_app. cbn [filter].
  destruct (is_sink_write e); reflexivity.
Qed.

Ltac discover_cases Hd :=
  revert Hd; unfold discover_func; fw_unfold;
  match goal with
  | |- context [match ?a with Some _ => _ | None => _ end] => destruct a
  end;
  fw_cases;
  repeat match goal with
         | |- context [match ?x with BT_GATT_DISCOVER_PRIMARY => _ | _ => _ end] =>
             destruct x eqn:?
         end;
  fw_cases; intros Hd; try discriminate; injection Hd as _ <-.

Lemma run_callback_sink_closed :
  forall stack c w w',
    usb_configured (mem w) && is_some (hid_dev (mem w)) = false ->
    c <> on_usb_status USB_DC_CONFIGURED ->
    run_callback stack c w = Some w' ->
    usb_configured (mem w') && is_some (hid_dev (mem w')) = false /\
    sink_writes (log w') = sink_writes (log w).
Proof.
  intros stack c w w' Hw Hc Hrun. destruct c; cbn [run_callback] in Hrun.
  6:{ injection Hrun as <-. unfold scan_cb.
      apply (bt_data_parse_preserves stack
               (fun w1 => usb_configured (mem w1) && is_some (hid_dev (mem w1))
                          = false /\
                          sink_writes (log w1) = sink_writes (log w)));
        [|split; [exact Hw|reflexivity]].
      intros d a w0 [Hready Hsink].
      rewrite (proj1 (device_found_footprint stack d a w0)).
      split; [exact Hready|]. rewrite <- Hsink.
      fw_unfold. fw_cases; state_simpl;
        rewrite ?sink_writes_snoc; cbn [is_sink_write];
        rewrite ?app_nil_r; reflexivity. }
  3:{ destruct (discover_func stack conn attr w) as [[r w1]|] eqn:Hd;
        [|discriminate].
      injection Hrun as <-.
      discover_cases Hd; state_simpl;
        rewrite ?sink_writes_snoc; cbn [is_sink_write];
        rewrite ?app_nil_r; split; first [assumption|reflexivity]. }
  all: injection Hrun as <-;
    fw_unfold; try destruct status; try destruct data;
    fw_cases; state_simpl;
    rewrite ?sink_writes_snoc; cbn [is_sink_write]; rewrite ?app_nil_r;
    try congruence; split; first [assumption|reflexivity].
Qed.

(** X7. While the sink is not ready (USB not configured, or no HID
    device bound), no callback writes a report to it: along any run of
    callbacks without a USB_DC_CONFIGURED status, the reports written are
    those written before. *)
Theorem no_sink_write_until_usb_configured :
  forall stack cs w w',
    usb_configured (mem w) && is_some (hid_dev (mem w)) = false ->
    Forall (fun c => c <> on_usb_status USB_DC_CONFIGURED) cs ->
    run_callbacks stack cs w = Some w' ->
    sink_writes (log w') = sink_writes (log w).
Proof.
  intros stack cs. induction cs as [|c cs IH]; intros w w' Hw Hcs Hrun.
  - injection Hrun as <-. reflexivity.
  - cbn [run_callbacks] in Hrun.
    destruct (run_callback stack c w) as [w1|] eqn:Hc; [|discriminate].
    inversion Hcs as [|c0 cs0 Hhead Htail]; subst.
    destruct (run_callback_sink_closed stack c w w1 Hw Hhead Hc)
      as [Hready Hsink].
    rewrite <- Hsink. exact (IH w1 w' Hready Htail Hrun).
Qed.

Lemma report_buffer_stays_eight_bytes_witness :
  report_sized
    {| mem := set_hid_report [x02; x00; x04; x05; x06; x00; x00; x00]
                (set_current_conn (Some kinesis_conn)
                   (set_discover_params service_phase
                      (set_keyboard_paired true
                         (set_keyboard_addr kinesis_addr ready_state))));
       log := [bt_conn_ref kinesis_conn;
               settings_save_one (Some kinesis_addr);
               bt_gatt_discover kinesis_conn service_phase;
               hid_int_ep_write [x02; x00; x04; x05; x06; x00; x00; x00]] |}.
Proof.
  apply (report_buffer_stays_eight_bytes stack_ok
           [on_connected kinesis_conn 0;
            on_notify kinesis_conn
              (Some [x02; x00; x04; x05; x06; x00; x00; x00; x2a])]
           idle_world).
  - split; [reflexivity|constructor].
  - reflexivity.
Defined.

Lemma no_sink_write_until_usb_configured_witness :
  sink_writes
    [bt_conn_ref kinesis_conn;
     settings_save_one (Some kinesis_addr);
     bt_gatt_discover kinesis_conn service_phase;
     bt_conn_unref kinesis_conn; k_sleep 1000;
     bt_conn_le_create kinesis_addr; bt_conn_unref kinesis_conn] =
  sink_writes [].
Proof.
  assert (Hcs : Forall (fun c => c <> on_usb_status USB_DC_CONFIGURED)
                  [on_connected kinesis_conn 0;
                   on_notify kinesis_conn
                     (Some [x02; x00; x04; x05; x06; x00; x00; x00]);
                   on_disconnected kinesis_conn 8]).
  { repeat constructor; discriminate. }
  exact (no_sink_write_until_usb_configured stack_ok _ boot_world _
           eq_refl Hcs eq_refl).
Defined.

Lemma pairing_store_snoc :
  forall init l e,
    pairing_store init (l ++ [e]) =
    match e with
    | settings_save_one v => v
    | _ => pairing_store init l
    end.
Proof.
  intros init l e. unfold pairing_store. rewrite fold_left_app.
  destruct e; reflexivity.
Qed.

Lemma run_callback_pairing_consistent :
  forall stack init c w w',
    pairing_store init (log w) = pairing_record (mem w) ->
    run_callback stack c w = Some w' ->
    pairing_store init (log w') = pairing_record (mem w').
Proof.
  intros stack init c w w' Hw Hrun. destruct c; cbn [run_callback] in Hrun.
  6:{ injection Hrun as <-. unfold scan_cb.
      apply (bt_data_parse_preserves stack
               (fun w1 => pairing_store init (log w1) = pairing_record (mem w1)));
        [|exact Hw].
      intros d a w0 H0.
      rewrite (proj1 (device_found_footprint stack d a w0)).
      rewrite <- H0.
      fw_unfold. fw_cases; state_simpl;
        rewrite ?pairing_store_snoc; reflexivity. }
  3:{ destruct (discover_func stack conn attr w) as [[r w1]|] eqn:Hd;
        [|discriminate].
      injection Hrun as <-.
      discover_cases Hd; unfold pairing_record in *; state_simpl;
        rewrite ?pairing_store_snoc; exact Hw. }
  all: injection Hrun as <-;
    fw_unfold; try destruct status; try destruct data;
    fw_cases; unfold pairing_record in *; state_simpl;
    rewrite ?pairing_store_snoc; first [exact Hw|reflexivity].
Qed.

(** X8. The pairing record in the statics and the entry in the settings
    store stay the same thing along any run of callbacks (every settings
    write being carried out): paired with address A exactly when the store
    holds A, unpaired exactly when the entry is absent. *)
Theorem pairing_record_matches_store :
  forall stack init cs w w',
    pairing_store init (log w) = pairing_record (mem w) ->
    run_callbacks stack cs w = Some w' ->
    pairing_store init (log w') = pairing_record (mem w').
Proof.
  intros stack init cs w w' Hw Hrun.
  exact (run_callbacks_preserve stack
           (fun w0 => pairing_store init (log w0) = pairing_record (mem w0))
           (run_callback_pairing_consistent stack init) cs w w' Hw Hrun).
Qed.

Lemma pairing_record_matches_store_witness :
  pairing_store None
    [bt_conn_ref kinesis_conn;
     settings_save_one (Some kinesis_addr);
     bt_gatt_discover kinesis_conn service_phase;
     k_work_submit;
     bt_conn_disconnect kinesis_conn BT_HCI_ERR_REMOTE_USER_TERM_CONN;
     bt_conn_unref kinesis_conn;
     settings_save_one None; k_sleep 100; bt_le_scan_start] =
  None.
Proof.
  exact (pairing_record_matches_store stack_ok None
           [on_connected kinesis_conn 0; on_button_pressed 100;
            on_button_work]
           boot_world _ eq_refl eq_refl).
Defined.

(** ** Connection references *)

Lemma refs_from_app :
  forall stack l1 l2 before,
    refs_from stack before (l1 ++ l2) =
    refs_from stack before l1 + refs_from stack (before ++ l1) l2.
Proof.
  intros stack l1. induction l1 as [|e l1 IH]; intros l2 before.
  - cbn. rewrite app_nil_r. reflexivity.
  - cbn [app refs_from]. rewrite IH. rewrite <- app_assoc. cbn [app]. lia.
Qed.

Lemma refs_held_snoc :
  forall stack l e,
    refs_held stack (l ++ [e]) = refs_held stack l + ref_delta stack (l ++ [e]) e.
Proof.
  intros stack l e. unfold refs_held. rewrite refs_from_app.
  cbn [app refs_from]. lia.
Qed.

Ltac refs_step :=
  rewrite ?refs_held_snoc; cbn [ref_delta];
  repeat match goal with
         | H : zneq ?x 0 = _ |- context [zneq ?x 0] => rewrite H
         end;
  unfold refs_stored in *; state_simpl.

Lemma device_found_refs :
  forall stack d addr w,
    refs_held stack (log (snd (device_found stack d addr w))) =
    refs_held stack (log w).
Proof.
  intros stack d addr w. fw_unfold. fw_cases; state_simpl; refs_step; lia.
Qed.

(** X9. The firmware holds exactly the connection reference its one
    handle accounts for, before and after every callback: each reference
    taken is stored in current_conn, each one dropped was stored there or
    came with a connection object that is handed straight back.  The one
    case set aside is a successful connected() arriving while a handle is
    already stored. *)
Theorem connection_references_balanced :
  forall stack c w w',
    refs_held stack (log w) = refs_stored (mem w) ->
    (forall conn, c = on_connected conn 0 -> current_conn (mem w) = None) ->
    run_callback stack c w = Some w' ->
    refs_held stack (log w') = refs_stored (mem w').
Proof.
  intros stack c w w' Hw Hhost Hrun. destruct c; cbn [run_callback] in Hrun.
  6:{ injection Hrun as <-. unfold scan_cb.
      apply (bt_data_parse_preserves stack
               (fun w1 => refs_held stack (log w1) = refs_stored (mem w1)));
        [|exact Hw].
      intros d a w0 H0.
      rewrite device_found_refs.
      rewrite (proj1 (device_found_footprint stack d a w0)). exact H0. }
  3:{ destruct (discover_func stack conn attr w) as [[r w1]|] eqn:Hd;
        [|discriminate].
      injection Hrun as <-.
      discover_cases Hd; state_simpl; refs_step; lia. }
  3:{ injection Hrun as <-.
      destruct (zneq err 0) eqn:Herr.
      - fw_unfold. rewrite Herr. fw_cases; state_simpl; refs_step;
          repeat match goal with
                 | H : current_conn _ = _ |- _ => rewrite H in *
                 end; state_simpl; lia.
      - assert (Hnone : current_conn (mem w) = None).
        { apply (Hhost conn). unfold zneq in Herr.
          apply negb_false_iff, Z.eqb_eq in Herr. subst err. reflexivity. }
        fw_unfold. rewrite Herr. fw_cases; state_simpl; refs_step;
          rewrite Hnone in *; state_simpl; lia. }
  all: injection Hrun as <-;
    fw_unfold; try destruct status; try destruct data;
    fw_cases; state_simpl; refs_step;
    repeat match goal with
           | H : current_conn _ = _ |- _ => rewrite H in *
           end; state_simpl; lia.
Qed.

Lemma connection_references_balanced_witness :
  refs_held stack_ok
    [bt_conn_ref kinesis_conn;
     bt_conn_unref kinesis_conn;
     hid_int_ep_write (zero_bytes 8);
     k_sleep 1000;
     bt_conn_le_create kinesis_addr;
     bt_conn_unref kinesis_conn] =
  refs_stored (set_hid_report (zero_bytes 8)
                 (set_current_conn None linked_state)).
Proof.
  assert (Hhost : forall conn,
             on_disconnected kinesis_conn 8 = on_connected conn 0 ->
             current_conn (mem {| mem := linked_state;
                                  log := [bt_conn_ref kinesis_conn] |}) = None)
    by (intros conn Heq; discriminate Heq).
  exact (connection_references_balanced stack_ok
           (on_disconnected kinesis_conn 8)
           {| mem := linked_state; log := [bt_conn_ref kinesis_conn] |}
           {| mem := set_hid_report (zero_bytes 8)
                       (set_current_conn None linked_state);
              log := [bt_conn_ref kinesis_conn;
                      bt_conn_unref kinesis_conn;
                      hid_int_ep_write (zero_bytes 8);
                      k_sleep 1000;
                      bt_conn_le_create kinesis_addr;
                      bt_conn_unref kinesis_conn] |}
           eq_refl Hhost eq_refl).
Defined.

(** X10. The case set aside: a successful connected() that arrives while
    a handle is stored takes its reference and overwrites the stored
    handle without dropping the old one, so one more reference is held than
    the statics account for. *)
Theorem connected_over_live_handle_leaks :
  forall stack conn c w,
    current_conn (mem w) = Some c ->
    refs_held stack (log w) = refs_stored (mem w) ->
    current_conn (mem (snd (connected stack conn 0 w))) = Some conn /\
    refs_held stack (log (snd (connected stack conn 0 w))) =
      refs_stored (mem (snd (connected stack conn 0 w))) + 1.
Proof.
  intros stack conn c w Hc Hw.
  fw_unfold. cbn [zneq Z.eqb negb]. fw_cases; state_simpl; refs_step;
    rewrite Hc in *; state_simpl; split; first [reflexivity|lia].
Qed.

Lemma connected_over_live_handle_leaks_witness :
  current_conn
    (mem (snd (connected stack_ok {| conn_dst := addr_zero |} 0
                 {| mem := linked_state;
                    log := [bt_conn_ref kinesis_conn] |}))) =
    Some {| conn_dst := addr_zero |} /\
  refs_held stack_ok
    (log (snd (connected stack_ok {| conn_dst := addr_zero |} 0
                 {| mem := linked_state;
                    log := [bt_conn_ref kinesis_conn] |}))) =
  refs_stored
    (mem (snd (connected stack_ok {| conn_dst := addr_zero |} 0
                 {| mem := linked_state;
                    log := [bt_conn_ref kinesis_conn] |}))) + 1.
Proof.
  exact (connected_over_live_handle_leaks stack_ok {| conn_dst := addr_zero |}
           kinesis_conn
           {| mem := linked_state; log := [bt_conn_ref kinesis_conn] |}
           eq_refl eq_refl).
Defined.

(** ** A whole discovery *)

Lemma connected_success_world :
  forall stack conn w,
    snd (connected stack conn 0 w) =
    {| mem := set_discover_params service_phase
                (set_keyboard_paired true
                   (set_keyboard_addr (conn_dst conn)
                      (set_current_conn (Some conn) (mem w))));
       log := log w ++
              [bt_conn_ref conn;
               settings_save_one (Some (conn_dst conn));
               bt_gatt_discover conn service_phase] |}.
Proof.
  intros stack conn w. unfold connected.
  unfold bind, get, modify, emit, call, ret. cbn.
  rewrite <- !app_assoc. cbn.
  match goal with |- context [if ?b then _ else _] => destruct b end;
    reflexivity.
Qed.

(** X11. A connection from connected() to the end of discovery never
    passes a NULL uuid on, and it ends in one of three ways.  No HID service
    in the table: the parameters are cleared and nothing more is asked.  An
    HID service but no report characteristic from its handle on: the
    characteristic phase is asked for from the handle of the last HID
    service, then the parameters are cleared.  Otherwise the value handle
    of the first such characteristic is subscribed. *)
Theorem discovery_session_outcome :
  forall stack conn table w,
    service_found (mem w) = false ->
    let w0 := snd (connected stack conn 0 w) in
    match gatt_found table service_phase with
    | [] =>
        discovery_session stack conn table w =
        Some {| mem := set_discover_params discover_params_zero (mem w0);
                log := log w0 |}
    | s0 :: more =>
        let s := last (s0 :: more) s0 in
        let w1 := {| mem := set_discover_params (characteristic_phase (handle s))
                              (set_service_handle (handle s)
                                 (set_service_found false (mem w0)));
                     log := log w0 ++
                            [bt_gatt_discover conn
                               (characteristic_phase (handle s))] |} in
        let w2 := {| mem := set_discover_params discover_params_zero (mem w1);
                     log := log w1 |} in
        match gatt_found table (characteristic_phase (handle s)) with
        | [] => discovery_session stack conn table w = Some w2
        | c :: _ =>
            discovery_session stack conn table w =
            Some (snd (subscribe_to_reports stack conn (attr_value_handle c) w2))
        end
    end.
Proof.
  intros stack conn table w Hfresh w0.
  assert (Hw0 : discover_params (mem w0) = service_phase).
  { subst w0. rewrite connected_success_world. reflexivity. }
  assert (Hf0 : service_found (mem w0) = false).
  { subst w0. rewrite connected_success_world. exact Hfresh. }
  unfold discovery_session. fold w0. rewrite Hw0.
  destruct (gatt_found table service_phase) as [|s0 more] eqn:Hsvc.
  - cbn [gatt_deliver].
    rewrite (discover_func_nothing_found stack conn w0 Hf0).
    reflexivity.
  - cbv zeta.
    assert (Hsplit : s0 :: more =
                     removelast (s0 :: more) ++ [last (s0 :: more) s0])
      by (apply app_removelast_last; discriminate).
    set (s := last (s0 :: more) s0) in *.
    replace (gatt_deliver stack conn (s0 :: more) w0)
      with (gatt_deliver stack conn (removelast (s0 :: more) ++ [s]) w0)
      by (rewrite <- Hsplit; reflexivity).
    rewrite gatt_deliver_services by (rewrite Hw0; reflexivity).
    cbn [mem discover_params set_discover_params dp_func characteristic_phase].
    destruct (gatt_found table (characteristic_phase (handle s)))
      as [|c rest].
    + reflexivity.
    + cbn [gatt_deliver].
      rewrite discover_func_report by reflexivity. reflexivity.
Qed.

Lemma discovery_session_outcome_witness :
  discovery_session stack_ok kinesis_conn kinesis_table idle_world =
  Some (snd (subscribe_to_reports stack_ok kinesis_conn 19
               {| mem := set_discover_params discover_params_zero
                           (set_service_handle 15
                              (mem (snd (connected stack_ok kinesis_conn 0
                                           idle_world))));
                  log := log (snd (connected stack_ok kinesis_conn 0 idle_world))
                         ++ [bt_gatt_discover kinesis_conn
                               (characteristic_phase 15)] |})).
Proof.
  exact (discovery_session_outcome stack_ok kinesis_conn kinesis_table
           idle_world eq_refl).
Defined.

(** X12. notify_func takes no notice of the connection: run with any
    handle, or none, stored in current_conn and for any connection argument
    it returns the same value, makes the same calls and changes the other
    statics in the same way, leaving current_conn as it was. *)
Theorem notify_func_ignores_connection :
  forall stack conn conn' data length c w,
    notify_func stack conn data length
      {| mem := set_current_conn c (mem w); log := log w |} =
    (fst (notify_func stack conn' data length w),
     {| mem := set_current_conn c
                 (mem (snd (notify_func stack conn' data length w)));
        log := log (snd (notify_func stack conn' data length w)) |}).
Proof.
  intros stack conn conn' data length c w.
  fw_unfold. destruct data; state_simpl; fw_cases; state_simpl;
    try congruence; reflexivity.
Qed.

(** X13. After a link loss the bridge first tries the peer it was last
    connected to: disconnected(), run after a successful connected(conn),
    releases that handle, pushes the zero report if the sink is ready,
    sleeps one second and asks for a connection to conn's address. *)
Theorem link_loss_retries_last_peer :
  forall stack conn conn' reason w,
    let w1 := snd (connected stack conn 0 w) in
    exists tail,
      log (snd (disconnected stack conn' reason w1)) =
      log w1 ++ bt_conn_unref conn :: pushed_zero (mem w) ++
      k_sleep 1000 :: bt_conn_le_create (conn_dst conn) :: tail.
Proof.
  intros stack conn conn' reason w w1. subst w1.
  rewrite connected_success_world. unfold pushed_zero.
  fw_unfold. fw_cases; state_simpl; try congruence;
    repeat match goal with
           | H : Some _ = Some _ |- _ => injection H as <-
           end;
    eexists; rewrite <- !app_assoc; cbn [app]; reflexivity.
Qed.

(** ** Boot *)

Lemma main_loop_keeps :
  forall turns w,
    mem (snd (main_loop turns w)) = mem w /\
    exists tail, log (snd (main_loop turns w)) = log w ++ tail.
Proof.
  induction turns as [|n IH]; intros w.
  - split; [reflexivity|]. exists []. cbn. rewrite app_nil_r. reflexivity.
  - cbn [main_loop]. unfold bind.
    pose proof (main_loop_body_indicator w) as Hbody.
    destruct (main_loop_body w) as [[] w1]. injection Hbody as ->.
    destruct (IH {| mem := mem w;
                    log := log w ++
                           k_sleep 1000 ::
                           (if is_some (current_conn (mem w))
                            then [] else [gpio_pin_toggle_dt]) |})
      as [Hmem [tail Hlog]].
    split; [exact Hmem|].
    rewrite Hlog. cbn [log]. rewrite <- app_assoc. eexists. reflexivity.
Qed.

Lemma main_after_init :
  forall stack r entry turns w,
    init_ok r ->
    main stack r entry turns w =
    (settings_load entry ;;
     emit (k_sleep 1000) ;;
     s <- get ;;
     (if keyboard_paired s then attempt_reconnect stack
      else start_scan stack) ;;
     main_loop turns ;;
     ret None)
      {| mem := set_hid_dev (Some HID_0) (mem w); log := log w |}.
Proof.
  intros stack r entry turns w (H1 & H2 & H3 & H4 & H5 & H6 & H7 & H8 & H9).
  unfold main. rewrite H1, H2, H3, H4, H5, H6, H7, H8, H9.
  reflexivity.
Qed.

Lemma bind_unit :
  forall {B} (m : M unit) (k : unit -> M B) w,
    bind m k w = k tt (snd (m w)).
Proof.
  intros B m k w. unfold bind. destruct (m w) as [[] w']. reflexivity.
Qed.

Lemma boot_tail :
  forall stack turns w,
    current_conn (mem w) = None ->
    let w' := snd ((emit (k_sleep 1000) ;;
                    s <- get ;;
                    (if keyboard_paired s then attempt_reconnect stack
                     else start_scan stack) ;;
                    main_loop turns ;;
                    ret (@None Z)) w) in
    fst ((emit (k_sleep 1000) ;;
          s <- get ;;
          (if keyboard_paired s then attempt_reconnect stack
           else start_scan stack) ;;
          main_loop turns ;;
          ret (@None Z)) w) = None /\
    mem w' = mem w /\
    exists tail,
      log w' =
      log w ++ k_sleep 1000 ::
      (if keyboard_paired (mem w)
       then bt_conn_le_create (keyboard_addr (mem w))
       else bt_le_scan_start) :: tail.
Proof.
  intros stack turns w Hc. cbv zeta.
  rewrite bind_unit.
  set (w1 := snd (emit (k_sleep 1000) w)).
  assert (Hc1 : current_conn (mem w1) = None) by exact Hc.
  change ((s <- get ;;
           (if keyboard_paired s then attempt_reconnect stack
            else start_scan stack) ;;
           main_loop turns ;; ret None) w1)
    with (((if keyboard_paired (mem w) then attempt_reconnect stack
            else start_scan stack) ;;
           main_loop turns ;; ret (@None Z)) w1).
  rewrite !bind_unit. unfold ret. cbn [fst snd].
  split; [reflexivity|].
  match goal with
  | |- context [main_loop turns ?x] =>
      destruct (main_loop_keeps turns x) as [Hmem3 [tail3 Hlog3]]
  end.
  rewrite Hmem3, Hlog3.
  destruct (keyboard_paired (mem w)) eqn:Hp.
  - rewrite attempt_reconnect_mem. split; [reflexivity|].
    rewrite (attempt_reconnect_paired stack w1 Hc1 Hp). cbv zeta.
    match goal with |- context [if ?b then _ else _] => destruct b end.
    + rewrite start_scan_idle by exact Hc. subst w1. cbn [snd emit log mem].
      rewrite <- !app_assoc. cbn [app]. eexists. reflexivity.
    + subst w1. cbn [snd emit log mem].
      rewrite <- !app_assoc. cbn [app]. eexists. reflexivity.
  - rewrite start_scan_mem. split; [reflexivity|].
    rewrite start_scan_idle by exact Hc1. subst w1. cbn [snd emit log mem].
    rewrite <- !app_assoc. cbn [app]. eexists. reflexivity.
Qed.

Lemma settings_load_cases :
  forall entry w,
    log (snd (settings_load entry w)) = log w /\
    current_conn (mem (snd (settings_load entry w))) = current_conn (mem w) /\
    hid_dev (mem (snd (settings_load entry w))) = hid_dev (mem w) /\
    match entry with
    | Some stored =>
        if (List.length stored =? 7)%nat
        then mem (snd (settings_load entry w)) =
             set_keyboard_paired true
               (set_keyboard_addr
                  (addr_of_bytes
                     (read_into (addr_bytes (keyboard_addr (mem w))) 7 stored))
                  (mem w))
        else snd (settings_load entry w) = w
    | None => snd (settings_load entry w) = w
    end.
Proof.
  intros [stored|] w; [|repeat split; reflexivity].
  unfold settings_load, settings_set, bind, modify, ret.
  cbn [String.eqb Ascii.eqb Bool.eqb andb].
  destruct (List.length stored =? 7)%nat eqn:Hlen.
  - apply Nat.eqb_eq in Hlen. rewrite Hlen. cbn. repeat split; reflexivity.
  - apply Nat.eqb_neq in Hlen. rewrite zneq_true by lia.
    repeat split; reflexivity.
Qed.

Lemma main_from_boot :
  forall stack r entry turns,
    init_ok r ->
    let w0 := snd (settings_load entry
                     {| mem := set_hid_dev (Some HID_0) boot_state;
                        log := [] |}) in
    fst (main stack r entry turns boot_world) = None /\
    mem (snd (main stack r entry turns boot_world)) = mem w0 /\
    exists tail,
      log (snd (main stack r entry turns boot_world)) =
      k_sleep 1000 ::
      (if keyboard_paired (mem w0)
       then bt_conn_le_create (keyboard_addr (mem w0))
       else bt_le_scan_start) :: tail.
Proof.
  intros stack r entry turns Hok w0.
  rewrite (main_after_init stack r entry turns boot_world Hok).
  rewrite bind_unit. fold w0.
  destruct (settings_load_cases entry
              {| mem := set_hid_dev (Some HID_0) boot_state; log := [] |})
    as [Hlog [Hconn _]].
  fold w0 in Hlog, Hconn. cbn [log mem] in Hlog.
  pose proof (boot_tail stack turns w0 Hconn) as Htail. cbv zeta in Htail.
  rewrite Hlog in Htail. exact Htail.
Qed.

Lemma read_into_whole :
  forall object stored,
    List.length stored = 7%nat ->
    List.length object = 7%nat ->
    read_into object 7 stored = stored.
Proof.
  intros object stored Hs Ho. unfold read_into.
  rewrite firstn_all2 by lia. rewrite Hs. cbn [Nat.min].
  rewrite skipn_all2 by lia. apply app_nil_r.
Qed.

(** X14. Boot, every initialisation call having succeeded.  With a
    seven-byte entry in the store the bridge comes up paired with the
    address those bytes spell and, after one second, its first request is a
    connection to that address.  With no entry, or one of another length,
    it comes up unpaired and its first request is a scan.  Either way main
    stays in its loop with the HID device bound. *)
Theorem boot_reconnects_or_scans :
  forall stack r entry turns,
    init_ok r ->
    let w' := snd (main stack r entry turns boot_world) in
    fst (main stack r entry turns boot_world) = None /\
    hid_dev (mem w') = Some HID_0 /\
    match entry with
    | Some stored =>
        if (List.length stored =? 7)%nat
        then keyboard_paired (mem w') = true /\
             keyboard_addr (mem w') = addr_of_bytes stored /\
             exists tail,
               log w' = k_sleep 1000 ::
                        bt_conn_le_create (addr_of_bytes stored) :: tail
        else keyboard_paired (mem w') = false /\
             exists tail,
               log w' = k_sleep 1000 :: bt_le_scan_start :: tail
    | None =>
        keyboard_paired (mem w') = false /\
        exists tail, log w' = k_sleep 1000 :: bt_le_scan_start :: tail
    end.
Proof.
  intros stack r entry turns Hok w'.
  destruct (main_from_boot stack r entry turns Hok) as [Hret [Hmem Hlog]].
  fold w' in Hmem, Hlog. cbv zeta in Hmem, Hlog.
  destruct (settings_load_cases entry
              {| mem := set_hid_dev (Some HID_0) boot_state; log := [] |})
    as [_ [_ [Hdev Hcase]]].
  split; [exact Hret|]. split; [rewrite Hmem; exact Hdev|].
  destruct entry as [stored|].
  - destruct (List.length stored =? 7)%nat eqn:Hlen.
    + apply Nat.eqb_eq in Hlen.
      rewrite read_into_whole in Hcase by (exact Hlen || reflexivity).
      rewrite Hcase in Hmem, Hlog. rewrite Hmem.
      split; [reflexivity|]. split; [reflexivity|]. exact Hlog.
    + rewrite Hcase in Hmem, Hlog. rewrite Hmem.
      split; [reflexivity|]. exact Hlog.
  - rewrite Hcase in Hmem, Hlog. rewrite Hmem.
    split; [reflexivity|]. exact Hlog.
Qed.

Lemma boot_reconnects_or_scans_witness :
  let w' := snd (main stack_ok all_ok (Some (addr_bytes kinesis_addr)) 3
                   boot_world) in
  keyboard_paired (mem w') = true /\
  keyboard_addr (mem w') = kinesis_addr /\
  exists tail,
    log w' = k_sleep 1000 :: bt_conn_le_create kinesis_addr :: tail.
Proof.
  assert (Hok : init_ok all_ok) by (repeat split).
  exact (proj2 (proj2 (boot_reconnects_or_scans stack_ok all_ok
                         (Some (addr_bytes kinesis_addr)) 3 Hok))).
Defined.

(** X15. Pairing survives a restart: the entry connected() saves for a
    peer, read back as the seven bytes of its address at the next boot,
    makes the first request of that boot a connection to the same peer. *)
Theorem pairing_survives_reboot :
  forall stack stack' init conn w r turns,
    List.length (addr_a (conn_dst conn)) = 6%nat ->
    init_ok r ->
    let saved := pairing_store init (log (snd (connected stack conn 0 w))) in
    let w' := snd (main stack' r (option_map addr_bytes saved) turns
                     boot_world) in
    saved = Some (conn_dst conn) /\
    keyboard_paired (mem w') = true /\
    keyboard_addr (mem w') = conn_dst conn /\
    exists tail,
      log w' = k_sleep 1000 :: bt_conn_le_create (conn_dst conn) :: tail.
Proof.
  intros stack stack' init conn w r turns Haddr Hok saved w'.
  assert (Hsaved : saved = Some (conn_dst conn)).
  { subst saved. rewrite connected_success_world. cbn [log].
    unfold pairing_store. rewrite fold_left_app. reflexivity. }
  split; [exact Hsaved|].
  subst w'. rewrite Hsaved. cbn [option_map].
  destruct (main_from_boot stack' r (Some (addr_bytes (conn_dst conn))) turns Hok)
    as [_ [Hmem Hlog]].
  cbv zeta in Hmem, Hlog.
  destruct (settings_load_cases (Some (addr_bytes (conn_dst conn)))
              {| mem := set_hid_dev (Some HID_0) boot_state; log := [] |})
    as [_ [_ [_ Hcase]]].
  replace (List.length (addr_bytes (conn_dst conn)) =? 7)%nat with true
    in Hcase by (unfold addr_bytes; cbn [List.length]; rewrite Haddr; reflexivity).
  rewrite (addr_round_trip (conn_dst conn) _ Haddr) in Hcase.
  rewrite Hcase in Hmem, Hlog. rewrite Hmem.
  split; [reflexivity|]. split; [reflexivity|]. exact Hlog.
Qed.

Lemma pairing_survives_reboot_witness :
  let saved := pairing_store None
                 (log (snd (connected stack_ok kinesis_conn 0 idle_world))) in
  let w' := snd (main stack_eio all_ok (option_map addr_bytes saved) 2
                   boot_world) in
  saved = Some kinesis_addr /\
  keyboard_paired (mem w') = true /\
  keyboard_addr (mem w') = kinesis_addr /\
  exists tail,
    log w' = k_sleep 1000 :: bt_conn_le_create kinesis_addr :: tail.
Proof.
  assert (Hok : init_ok all_ok) by (repeat split).
  exact (pairing_survives_reboot stack_ok stack_eio None kinesis_conn
           idle_world all_ok 2 eq_refl Hok).
Defined.

Lemma fst_bind :
  forall {A B} (m : M A) (k : A -> M B) w,
    fst (bind m k w) = fst (k (fst (m w)) (snd (m w))).
Proof.
  intros A B m k w. unfold bind. destruct (m w). reflexivity.
Qed.

Lemma zneq_false_eq (a b : Z) : zneq a b = false -> a = b.
Proof.
  unfold zneq. intros H. apply negb_false_iff, Z.eqb_eq in H. exact H.
Qed.

Ltac init_failed :=
  split;
  [ split;
    [ intros Hnone; unfold bind, modify, ret in Hnone; discriminate Hnone
    | intros (? & ? & ? & ? & ? & ? & ? & ? & ?); subst;
      cbn in *; discriminate ]
  | intros _; unfold bind, modify, ret; repeat split; reflexivity ].

(** X16. main enters the lifecycle exactly when every initialisation call
    has succeeded.  When one of them fails it returns -1 and has asked for
    neither a scan nor a connection: the call log and the pairing record
    are as they were. *)
Theorem main_needs_every_init_step :
  forall stack r entry turns w,
    (fst (main stack r entry turns w) = None <-> init_ok r) /\
    (fst (main stack r entry turns w) <> None ->
       fst (main stack r entry turns w) = Some (-1) /\
       log (snd (main stack r entry turns w)) = log w /\
       pairing_record (mem (snd (main stack r entry turns w))) =
         pairing_record (mem w)).
Proof.
  intros stack [lr lc br bc bi hb ui ue be] entry turns w.
  unfold main, init_ok.
  cbn [led_ready led_configure button_ready button_configure
       button_interrupt hid_binding usb_hid_init usb_enable bt_enable].
  destruct (negb lr) eqn:H1; [init_failed|].
  destruct (zneq lc 0) eqn:H2; [init_failed|].
  destruct (negb br) eqn:H3; [init_failed|].
  destruct (zneq bc 0) eqn:H4; [init_failed|].
  destruct (zneq bi 0) eqn:H5; [init_failed|].
  destruct (negb (is_some hb)) eqn:H6; [init_failed|].
  destruct (zneq ui 0) eqn:H7; [init_failed|].
  destruct (zneq ue 0) eqn:H8; [init_failed|].
  destruct (zneq be 0) eqn:H9; [init_failed|].
  assert (Hnone : fst ((modify (set_hid_dev hb) ;;
                        settings_load entry ;;
                        emit (k_sleep 1000) ;;
                        s <- get ;;
                        (if keyboard_paired s then attempt_reconnect stack
                         else start_scan stack) ;;
                        main_loop turns ;;
                        ret (@None Z)) w) = None).
  { rewrite !fst_bind. reflexivity. }
  split.
  - split; [intros _|intros _; exact Hnone].
    apply negb_false_iff in H1, H3, H6.
    apply zneq_false_eq in H2, H4, H5, H7, H8, H9.
    destruct hb as [[]|]; [|discriminate].
    repeat split; assumption.
  - intros Hsome. rewrite Hnone in Hsome. contradiction Hsome. reflexivity.
Qed.

(** ** Who may ask for a link *)

Lemma link_attempts_snoc :
  forall l e,
    link_attempts (l ++ [e]) =
    (link_attempts l + if is_link_attempt e then 1 else 0)%nat.
Proof.
  intros l e. rewrite link_attempts_app. unfold link_attempts at 2.
  cbn [filter]. destruct (is_link_attempt e); reflexivity.
Qed.

(** X17. An unpaired bridge connects only to what a scan finds: while
    keyboard_paired is false, no callback other than the scan callback
    asks for a connection. *)
Theorem unpaired_bridge_connects_only_from_scan :
  forall stack c w w',
    keyboard_paired (mem w) = false ->
    (forall addr ad, c <> on_scan addr ad) ->
    run_callback stack c w = Some w' ->
    connect_requests (log w') = connect_requests (log w).
Proof.
  intros stack c w w' Hp Hc Hrun. destruct c; cbn [run_callback] in Hrun.
  6:{ exfalso. exact (Hc addr ad eq_refl). }
  3:{ destruct (discover_func stack conn attr w) as [[r w1]|] eqn:Hd;
        [|discriminate].
      injection Hrun as <-.
      discover_cases Hd; state_simpl;
        rewrite ?connect_requests_snoc; cbn [is_connect_request]; lia. }
  all: injection Hrun as <-;
    fw_unfold; try destruct status; try destruct data;
    fw_cases; state_simpl; try congruence;
    rewrite ?connect_requests_snoc; cbn [is_connect_request]; lia.
Qed.

Lemma unpaired_bridge_connects_only_from_scan_witness :
  connect_requests
    (log (snd (disconnected stack_ok kinesis_conn 8
                 {| mem := set_current_conn (Some kinesis_conn) ready_state;
                    log := [] |}))) =
  connect_requests [].
Proof.
  assert (Hc : forall addr ad,
             on_disconnected kinesis_conn 8 <> on_scan addr ad)
    by (intros addr ad; discriminate).
  exact (unpaired_bridge_connects_only_from_scan stack_ok
           (on_disconnected kinesis_conn 8)
           {| mem := set_current_conn (Some kinesis_conn) ready_state;
              log := [] |} _ eq_refl Hc eq_refl).
Defined.

(** X18. Apart from the scan callback, a callback that starts with a live
    handle asks for a scan or a connection only if it has given the handle
    up: afterwards either no such request was added or current_conn is
    NULL. *)
Theorem link_attempt_only_after_release :
  forall stack c w w' h,
    current_conn (mem w) = Some h ->
    (forall addr ad, c <> on_scan addr ad) ->
    run_callback stack c w = Some w' ->
    link_attempts (log w') = link_attempts (log w) \/
    current_conn (mem w') = None.
Proof.
  intros stack c w w' h Hlive Hc Hrun. destruct c; cbn [run_callback] in Hrun.
  6:{ exfalso. exact (Hc addr ad eq_refl). }
  3:{ destruct (discover_func stack conn attr w) as [[r w1]|] eqn:Hd;
        [|discriminate].
      injection Hrun as <-. left.
      discover_cases Hd; state_simpl;
        rewrite ?link_attempts_snoc; cbn [is_link_attempt]; lia. }
  all: injection Hrun as <-;
    destruct w as [[cc ? ? ? ? ? ? ? ? ? ? ?] l];
    cbn [mem current_conn] in Hlive; subst cc;
    fw_unfold; try destruct status; try destruct data;
    repeat (state_simpl;
            match goal with
            | |- context [if ?b then _ else _] => destruct b eqn:?
            end);
    state_simpl; try congruence;
    first [ right; reflexivity
          | left; rewrite ?link_attempts_snoc; cbn [is_link_attempt]; lia ].
Qed.

Lemma link_attempt_only_after_release_witness :
  link_attempts
    (log (snd (button_work_handler stack_ok
                 {| mem := linked_state; log := [] |}))) =
  link_attempts [] \/
  current_conn
    (mem (snd (button_work_handler stack_ok
                 {| mem := linked_state; log := [] |}))) = None.
Proof.
  assert (Hc : forall addr ad, on_button_work <> on_scan addr ad)
    by (intros addr ad; discriminate).
  exact (link_attempt_only_after_release stack_ok on_button_work
           {| mem := linked_state; log := [] |} _ kinesis_conn
           eq_refl Hc eq_refl).
Defined.

(** X19. The scan callback does not look at current_conn before it
    connects: for a matching name element, once the scan has stopped,
    device_found sleeps 100 ms and asks for a connection to the advertiser,
    whether or not a handle is live. *)
Theorem device_found_connects_even_when_linked :
  forall stack d addr w,
    (bd_type d =? BT_DATA_NAME_COMPLETE) ||
    (bd_type d =? BT_DATA_NAME_SHORTENED) = true ->
    (exists pre post,
       copy_name (bd_data d) = pre ++ TARGET_DEVICE_NAME ++ post) ->
    stack (log w ++ [bt_le_scan_stop]) = 0 ->
    exists tail,
      log (snd (device_found stack d addr w)) =
      log w ++ bt_le_scan_stop :: k_sleep 100 ::
      bt_conn_le_create addr :: tail.
Proof.
  intros stack d addr w Hnamed Hheld Hstop.
  unfold device_found. rewrite Hnamed, device_name_match.
  apply strstr_spec in Hheld. rewrite Hheld.
  fw_unfold. cbn [mem log]. rewrite Hstop. cbn [zneq Z.eqb negb].
  fw_cases; state_simpl; eexists; rewrite <- !app_assoc; cbn [app];
    reflexivity.
Qed.

Lemma device_found_connects_even_when_linked_witness :
  exists tail,
    log (snd (device_found stack_ok adv_name addr_zero
                {| mem := linked_state; log := [] |})) =
    [] ++ bt_le_scan_stop :: k_sleep 100 :: bt_conn_le_create addr_zero :: tail.
Proof.
  assert (Hheld : exists pre post,
             copy_name (bd_data adv_name) = pre ++ TARGET_DEVICE_NAME ++ post)
    by (exists [], []; reflexivity).
  exact (device_found_connects_even_when_linked stack_ok adv_name addr_zero
           {| mem := linked_state; log := [] |} eq_refl Hheld eq_refl).
Defined.

(** ** A second link over a live handle *)

(** C3, on the code.  Boot with a stored address: the direct connect
    fails and a scan is started, which nothing stops.  A single press
    connects directly and connected() stores the handle.  The scan then
    reports another advertiser named "Adv360 Pro": device_found, which does
    not look at current_conn, stops the scan and asks for a connection
    while the first handle is still stored.  When that connection
    completes, connected() stores the new handle over the old one without
    releasing it: two references are held, one is accounted for. *)
Theorem second_link_over_live_handle :
  let stack := stack_first_create_fails in
  let seen w := (current_conn (mem w), connect_requests (log w),
                 refs_held stack (log w), refs_stored (mem w)) in
  log booted_scanning =
    [k_sleep 1000; bt_conn_le_create kinesis_addr; bt_le_scan_start] /\
  option_map seen (run_callbacks stack press_then_link booted_scanning) =
    Some (Some kinesis_conn, 2%nat, 1, 1) /\
  option_map seen
    (run_callbacks stack (press_then_link ++ [on_scan other_addr [adv_name]])
       booted_scanning) =
    Some (Some kinesis_conn, 3%nat, 1, 1) /\
  option_map seen
    (run_callbacks stack
       (press_then_link ++
        [on_scan other_addr [adv_name]; on_connected other_conn 0])
       booted_scanning) =
    Some (Some other_conn, 3%nat, 2, 1).
Proof.
  cbv zeta. repeat split; vm_compute; reflexivity.
Qed.
